(** * lib/rdfvalues/flows.py: task identifiers, message payloads, flow state

    A shallow embedding of the parts of [flows.py] that carry behaviour:

    - [GrrMessage.GenerateTaskID] and the identifier block of
      [Task.__init__], over the class-level counters and locks;
    - [GrrMessage.__init__] and the [payload] property;
    - [DataObject] and [FlowState].

    Python integers are unbounded, so they are [Z]; the masks of the source
    are written with [Z.land].  A Python [dict] keyed by attribute names is a
    [gmap string _].  An exception is a value of [exn]; a call that can raise
    returns a [result]. *)

From Stdlib Require Import ZArith Lia.
From stdpp Require Import base option gmap strings list fin_maps.

Local Open Scope Z_scope.

(** ** Exceptions and results *)

Inductive exn :=
  | AttributeError (msg : string)
  | TypeError
  | RuntimeError (msg : string)
  | DecodeError.

Inductive result (A : Type) :=
  | Ok (a : A)
  | Raise (e : exn).
Arguments Ok {A} a.
Arguments Raise {A} e.

Definition raises {A} (r : result A) : Prop :=
  match r with Ok _ => False | Raise _ => True end.

#[global] Instance result_ret : MRet result := fun A a => Ok a.
#[global] Instance result_bind : MBind result :=
  fun A B f r => match r with Ok a => f a | Raise e => Raise e end.

(** ** Python values

    The values a flow keeps in its state: [None], booleans, integers,
    strings, and [DataObject]s, which are dictionaries keyed by attribute
    name and nest. *)

#[warnings="-register-all"]
Inductive value :=
  | VNone
  | VBool (b : bool)
  | VInt (z : Z)
  | VStr (s : string)
  | VData (d : gmap string value).

(** Python's truth test, as used by [if x:] and [not x]. *)
Definition py_truth (v : value) : bool :=
  match v with
  | VNone => false
  | VBool b => b
  | VInt z => negb (Z.eqb z 0)
  | VStr s => negb (String.eqb s "")
  | VData d => negb (Nat.eqb (size d) 0)
  end.

(** [v != -1] *)
Definition py_ne_minus_one (v : value) : bool :=
  match v with
  | VInt z => negb (Z.eqb z (-1))
  | _ => true
  end.

(** Modelled from the spec: the serialiser behind [SerializeToString] and
    [ParseFromString] is [cPickle], which is not in this file.  The spec
    gives it as the opaque blob persistence boundary: [Serialize] takes a
    structured value to bytes, [Deserialize] takes bytes to a structured
    value and fails on malformed bytes only.  So [dumps] is a function of
    the value and [loads] is [None] where [pickle.loads] raises. *)
Record Pickle := mkPickle {
  dumps : value -> string;
  loads : string -> option value
}.

(** ** The process-wide allocator state

    [GrrMessage] and [Task] each declare a class attribute [lock] and a class
    attribute [next_id_base] (lines 19-20 and 311-312).  The world holds both
    counters, and a log of what an allocation did to the class-level state,
    in program order. *)

Inductive klass := cls_GrrMessage | cls_Task.

Inductive event :=
  | Acquire (c : klass)              (* entering [with c.lock:] *)
  | Release (c : klass)              (* leaving it *)
  | ReadBase (c : klass)             (* reading [c.next_id_base] *)
  | WriteBase (c : klass) (v : Z)    (* [c.next_id_base = v] *)
  | Sleep.                           (* [time.sleep(0.001)] *)

Record World := mkWorld {
  GrrMessage_next_id_base : Z;
  Task_next_id_base : Z;
  trace : list event
}.

(** A computation over the world. *)
Definition M (A : Type) : Type := World -> A * World.

#[global] Instance M_ret : MRet M := fun A a w => (a, w).
#[global] Instance M_bind : MBind M :=
  fun A B f m w => let '(a, w') := m w in f a w'.

Definition ret {A} (a : A) : M A := mret a.

Definition emit (e : event) : M unit :=
  fun w => (tt, mkWorld (GrrMessage_next_id_base w) (Task_next_id_base w)
                        (trace w ++ [e])).

Definition read_next_id_base (c : klass) : M Z :=
  fun w => (match c with
            | cls_GrrMessage => GrrMessage_next_id_base w
            | cls_Task => Task_next_id_base w
            end,
            mkWorld (GrrMessage_next_id_base w) (Task_next_id_base w)
                    (trace w ++ [ReadBase c])).

Definition write_next_id_base (c : klass) (v : Z) : M unit :=
  fun w => (tt,
            match c with
            | cls_GrrMessage =>
                mkWorld v (Task_next_id_base w) (trace w ++ [WriteBase c v])
            | cls_Task =>
                mkWorld (GrrMessage_next_id_base w) v (trace w ++ [WriteBase c v])
            end).

(** [with c.lock: body] *)
Definition with_lock {A} (c : klass) (body : M A) : M A :=
  emit (Acquire c) ;; a ← body; emit (Release c) ;; ret a.

Definition when (b : bool) (m : M unit) : M unit := if b then m else ret tt.

(** ** Payload objects

    What [GrrMessage.__init__] and the [payload] setter look at in the
    object they are handed: its truth value ([if payload:], decided by the
    object's [__nonzero__] or [__len__], as [MessageList.__len__] and
    [FlowState.__len__] do in this file), whether it is an [RDFValue],
    and, for one, its serialisation, its [_age], its class name and its
    [priority] attribute ([None] where reading it raises
    [AttributeError]). *)

Record RDFValue := mkRDFValue {
  class_name : string;
  SerializeToString : result string;
  _age : option Z;
  priority_attr : option Z;
  nonzero : bool
}.

Inductive pyobj :=
  | PyNone
  | PyRDFValue (v : RDFValue)
  | PyObject (truth : bool) (priority : option Z).   (* any other object *)

Definition pyobj_truth (o : pyobj) : bool :=
  match o with
  | PyNone => false
  | PyRDFValue v => nonzero v
  | PyObject b _ => b
  end.

(** [o.priority], [None] standing for [AttributeError]. *)
Definition pyobj_priority (o : pyobj) : option Z :=
  match o with
  | PyNone => None
  | PyRDFValue v => priority_attr v
  | PyObject _ p => p
  end.

(** ** The class registry

    [self.classes] maps a class name to an [RDFValue] class.  A class is
    seen through what the getter does with it: build an instance with an
    age and parse a string into it. *)

Record RDFClass := mkRDFClass {
  cls_name : string;
  cls_decode : option Z -> string -> result value
    (* [r = cls(age=age); r.ParseFromString(s)], the state of [r] *)
}.

Record RDFInstance := mkRDFInstance {
  inst_class : string;
  inst_age : option Z;
  inst_state : value
}.

(** Modelled from the spec: [rdfvalue.RDFString] is not in this file; the
    spec describes the fallback as a generic opaque-string value type whose
    decoding is never an error, so it keeps the bytes it is given. *)
Definition RDFString : RDFClass :=
  mkRDFClass "RDFString" (fun _ s => Ok (VStr s)).

(** ** GrrMessage *)

Module GrrMessage.

Definition max_ttl : Z := 5.
Definition max_priority : Z := 7.

(** The fields of the protobuf that this file reads or writes. *)
Record t := mk {
  task_id : Z;
  priority : Z;
  args : string;
  args_age : option Z;
  args_rdf_name : string
}.

(** [GenerateTaskID] (lines 42-65).  [ushort] is the value returned by
    [utils.PRNG.GetUShort()], [now_ms] is [long(time.time() * 1000)]. *)
Definition GenerateTaskID (self : t) (ushort now_ms : Z) : M Z :=
  let random_number := ushort + 1 in
  id_base ← with_lock cls_Task (
    next_id_base ← read_next_id_base cls_Task;
    let id_base := Z.land (next_id_base + random_number) 0xFFFFFFFF in
    when (id_base <? next_id_base) (emit Sleep) ;;
    write_next_id_base cls_Task id_base ;;
    ret id_base);
  let time_base := Z.shiftl (Z.land now_ms 0x1FFFFFFF) 32 in
  let priority_prefix := max_priority - priority self in
  let task_id := Z.lor time_base id_base in
  let task_id := Z.lor task_id (Z.shiftl priority_prefix 61) in
  ret task_id.

(** The [payload] getter (lines 67-77). *)
Definition payload (classes : gmap string RDFClass) (self : t)
  : result (option RDFInstance) :=
  if negb (String.eqb (args_rdf_name self) "") then
    let result_cls := default RDFString (classes !! args_rdf_name self) in
    st ← cls_decode result_cls (args_age self) (args self);
    Ok (Some (mkRDFInstance (cls_name result_cls) (args_age self) st))
  else Ok None.

(** The [payload] setter (lines 79-92). *)
Definition set_payload (self : t) (value : pyobj) : result t :=
  match value with
  | PyRDFValue v =>
      s ← SerializeToString v;
      let self := mk (task_id self) (priority self) s (args_age self)
                     (args_rdf_name self) in
      let self :=
        match _age v with
        | Some a => mk (task_id self) (priority self) (args self) (Some a)
                       (args_rdf_name self)
        | None => self
        end in
      Ok (mk (task_id self) (priority self) (args self) (args_age self)
             (class_name v))
  | _ => Raise (RuntimeError "Payload must be an RDFValue.")
  end.

(** [__init__] (lines 27-40).  [self] is the message as the base
    initialiser leaves it: built from [initializer] and the keyword
    arguments, [priority=q] among them. *)
Definition __init__ (self : t) (payload : pyobj) (ushort now_ms : Z)
  : M (result t) :=
  let after_payload :=
    if pyobj_truth payload then
      self ← set_payload self payload;
      match pyobj_priority payload with
      | Some p => Ok (mk (task_id self) p (args self) (args_age self)
                         (args_rdf_name self))
      | None => Ok self
      end
    else Ok self in
  match after_payload with
  | Raise e => ret (Raise e)
  | Ok self =>
      if Z.eqb (task_id self) 0 then
        tid ← GenerateTaskID self ushort now_ms;
        ret (Ok (mk tid (priority self) (args self) (args_age self)
                    (args_rdf_name self)))
      else ret (Ok self)
  end.

End GrrMessage.

(** ** Task (deprecated format) *)

Module Task.

Record t := mk {
  id : Z;
  priority : Z
}.

(** The identifier block that ends [Task.__init__] (lines 346-361). *)
Definition init_id (self : t) (ushort now_ms : Z) : M t :=
  if Z.eqb (id self) 0 then
    let random_number := ushort + 1 in
    id_base ← with_lock cls_Task (
      next_id_base ← read_next_id_base cls_Task;
      let id_base := Z.land (next_id_base + random_number) 0xFFFFFFFF in
      when (id_base <? next_id_base) (emit Sleep) ;;
      write_next_id_base cls_Task id_base ;;
      ret id_base);
    let time_base := Z.shiftl (Z.land now_ms 0xFFFFFFFF) 32 in
    ret (mk (time_base + id_base) (priority self))
  else ret self.

End Task.

(** ** DataObject *)

Module DataObject.

(** [Register] (lines 131-132). *)
Definition Register (self : gmap string value) (item : string) (v : value)
  : gmap string value :=
  <[item := v]> self.

(** [__setattr__] (lines 134-135). *)
Definition __setattr__ (self : gmap string value) (item : string) (v : value)
  : gmap string value :=
  <[item := v]> self.

(** [__getattr__] (lines 137-141). *)
Definition __getattr__ (self : gmap string value) (item : string)
  : result value :=
  match self !! item with
  | Some v => Ok v
  | None => Raise (AttributeError item)
  end.

End DataObject.

(** What the interpreter does when the operations [FlowState] applies to
    [self.data] meet a value of each kind. *)

(** [len(v)] *)
Definition py_len (v : value) : result Z :=
  match v with
  | VStr s => Ok (Z.of_nat (String.length s))
  | VData d => Ok (Z.of_nat (size d))
  | _ => Raise TypeError
  end.

(** [item in v] *)
Definition py_contains (v : value) (item : string) : result bool :=
  match v with
  | VStr s => Ok (bool_decide (is_Some (String.index 0 item s)))
  | VData d => Ok (bool_decide (is_Some (d !! item)))
  | _ => Raise TypeError
  end.

(** [setattr(v, item, x)]: only a [DataObject] takes attributes. *)
Definition py_setattr (v : value) (item : string) (x : value) : result value :=
  match v with
  | VData d => Ok (VData (DataObject.__setattr__ d item x))
  | _ => Raise (AttributeError item)
  end.

(** [v.get(item, default)]: [dict.get] on a [DataObject]. *)
Definition py_get (v : value) (item : string) (default : value) : result value :=
  match v with
  | VData d =>
      Ok (match d !! item with Some x => x | None => default end)
  | _ => Raise (AttributeError "get")
  end.

(** [v.context]: no class here has an attribute of that name, so on a
    [DataObject] the lookup ends in [__getattr__]. *)
Definition py_context (v : value) : result value :=
  match v with
  | VData d => DataObject.__getattr__ d "context"
  | _ => Raise (AttributeError "context")
  end.

(** [getattr(v, item)].  Whether the type of [v] itself has an attribute
    [item] (a method of [dict], of [str], ...) is the interpreter's
    business: [builtin] answers it per type.  Short of that only a
    [DataObject] has something to say, through its [__getattr__]. *)
Inductive pytype := TNone | TBool | TInt | TStr | TDataObject.

Definition type_of (v : value) : pytype :=
  match v with
  | VNone => TNone
  | VBool _ => TBool
  | VInt _ => TInt
  | VStr _ => TStr
  | VData _ => TDataObject
  end.

Inductive attribute :=
  | Field (v : value)     (* a stored value *)
  | Builtin.              (* an attribute of the value's type *)

Definition py_getattr (builtin : pytype -> string -> bool)
    (v : value) (item : string) : result attribute :=
  if builtin (type_of v) item then Ok Builtin
  else match v with
       | VData d => x ← DataObject.__getattr__ d item; Ok (Field x)
       | _ => Raise (AttributeError item)
       end.

(** ** FlowState *)

Module FlowState.

(** An instance is its [__dict__]. *)
Record t := mk { __dict__ : gmap string value }.

(** A class attribute is a plain value or a method. *)
Inductive class_attr := Attr (v : value) | Method.

(** The attributes the class statement itself defines (lines 161-232). *)
Definition own_attrs : gmap string class_attr :=
  list_to_map
    [ ("data_store_type", Attr (VStr "bytes"));
      ("data", Attr VNone);
      ("__init__", Method);
      ("ParseFromString", Method);
      ("SerializeToString", Method);
      ("Empty", Method);
      ("__len__", Method);
      ("get", Method);
      ("Register", Method);
      ("__setattr__", Method);
      ("__getattr__", Method);
      ("__str__", Method);
      ("__eq__", Method);
      ("__dir__", Method) ]%string.

(** [inherited] is what the class gets from [rdfvalue.RDFValue] and above,
    none of it in this file. *)
Definition class_attrs (inherited : gmap string class_attr)
  : gmap string class_attr :=
  own_attrs ∪ inherited.

(** [getattr(self.__class__, item, -1) != -1] *)
Definition class_has (inherited : gmap string class_attr) (item : string)
  : bool :=
  match class_attrs inherited !! item with
  | Some (Attr v) => py_ne_minus_one v
  | Some Method => true
  | None => false
  end.

(** [self.data]: the instance entry, else the class attribute
    [data = None] (line 174). *)
Definition data (self : t) : value :=
  match __dict__ self !! "data" with
  | Some v => v
  | None => VNone
  end.

(** [__setattr__] (lines 201-210).  [object.__setattr__] is taken at the
    names it stores in the instance dictionary: plain class attributes,
    methods and instance entries.  The slots every class has from
    [object] ([__class__], [__dict__], [__weakref__]), which it treats
    otherwise, are left out of the model. *)
Definition unregistered : exn :=
  AttributeError "Can not assign to state without calling Register() first".

Definition __setattr__ (inherited : gmap string class_attr)
    (self : t) (item : string) (v : value) : result t :=
  if class_has inherited item
     || bool_decide (is_Some (__dict__ self !! item)) then
    Ok (mk (<[item := v]> (__dict__ self)))
  else
    present ← py_contains (data self) item;
    if (present : bool) then
      d ← py_setattr (data self) item v;
      Ok (mk (<["data" := d]> (__dict__ self)))
    else Raise unregistered.

(** [__init__] (lines 176-178); [super_init] is the initialiser of
    [rdfvalue.RDFValue]. *)
Definition __init__ (inherited : gmap string class_attr)
    (super_init : t -> result t) : result t :=
  self ← __setattr__ inherited (mk ∅) "data" (VData ∅);
  super_init self.

(** [ParseFromString] (lines 180-184). *)
Definition ParseFromString (pk : Pickle)
    (inherited : gmap string class_attr) (self : t) (s : string)
  : result t :=
  match loads pk s with
  | Some v =>
      match __setattr__ inherited self "data" v with
      | Ok self' => Ok self'
      | Raise _ => Raise DecodeError
      end
  | None => Raise DecodeError
  end.

(** [SerializeToString] (lines 186-187). *)
Definition SerializeToString (pk : Pickle) (self : t) : string :=
  dumps pk (data self).

(** [Empty] (lines 189-190). *)
Definition Empty (self : t) : result bool :=
  n ← py_len (data self);
  if Z.eqb n 1 then
    c ← py_context (data self);
    Ok (negb (py_truth c))
  else Ok false.

(** [__len__] (lines 192-193). *)
Definition __len__ (self : t) : result Z := py_len (data self).

(** [get] (lines 195-196). *)
Definition get (self : t) (item : string) (default : value) : result value :=
  py_get (data self) item default.

(** [Register] (lines 198-199). *)
Definition Register (self : t) (item : string) (v : value) : result t :=
  d ← py_setattr (data self) item v;
  Ok (mk (<["data" := d]> (__dict__ self))).

(** [__eq__] (lines 226-229).  [other_isinstance] is
    [isinstance(other, self.__class__)]; when it fails the [and] stops
    there and [other] is not serialised. *)
Definition __eq__ (pk : Pickle) (self : t) (other_isinstance : bool)
    (other : t) : bool :=
  other_isinstance
  && String.eqb (SerializeToString pk self) (SerializeToString pk other).

(** [__getattr__] (lines 212-213): the hook the interpreter calls for a
    name found neither in the instance nor in the class. *)
Definition __getattr__ (builtin : pytype -> string -> bool)
    (self : t) (item : string) : result attribute :=
  py_getattr builtin (data self) item.

(** The class as the registry holds it. *)
Definition as_class (pk : Pickle) (inherited : gmap string class_attr)
    (super_init : t -> result t) : RDFClass :=
  mkRDFClass "FlowState" (fun _ s =>
    self ← __init__ inherited super_init;
    self ← ParseFromString pk inherited self s;
    Ok (VData (__dict__ self))).

End FlowState.

(** ** Vocabulary of the statements *)

(** The base one allocation step commits (line 51). *)
Definition next_base (w : World) (ushort : Z) : Z :=
  Z.land (Task_next_id_base w + (ushort + 1)) 0xFFFFFFFF.

(** What one allocation appends to the log (lines 48-55). *)
Definition alloc_events (w : World) (ushort : Z) : list event :=
  [Acquire cls_Task; ReadBase cls_Task]
  ++ (if next_base w ushort <? Task_next_id_base w then [Sleep] else [])
  ++ [WriteBase cls_Task (next_base w ushort); Release cls_Task].

(** The class an event touches. *)
Definition event_class (e : event) : option klass :=
  match e with
  | Acquire c | Release c | ReadBase c | WriteBase c _ => Some c
  | Sleep => None
  end.

(** A world that differs only in [GrrMessage.next_id_base]. *)
Definition with_GrrMessage_base (g : Z) (w : World) : World :=
  mkWorld g (Task_next_id_base w) (trace w).

(** A message with a given priority and no identifier yet. *)
Definition blank_message (p : Z) : GrrMessage.t :=
  GrrMessage.mk 0 p "" None "".

Definition world0 : World := mkWorld 0 0 [].

(** [item] names an existing class or instance member (line 203). *)
Definition is_member (inherited : gmap string FlowState.class_attr)
    (self : FlowState.t) (item : string) : bool :=
  FlowState.class_has inherited item
  || bool_decide (is_Some (FlowState.__dict__ self !! item)).

(** A payload of priority 3 that tests true and serialises. *)
Definition probe : RDFValue :=
  mkRDFValue "Probe" (Ok "bytes"%string) None (Some 3) true.

(** An instance of the [builtin] parameter: of the attributes of [dict],
    the one name the instances below use. *)
Definition dict_method (ty : pytype) (item : string) : bool :=
  match ty with
  | TDataObject => String.eqb item "keys"
  | _ => false
  end.

(** Modelled from the spec: the opaque blob persistence boundary gives
    back, on [Deserialize], the structured value that [Serialize] was
    given.  [reads_back pk v] says so of the codec [pk] at the value [v]. *)
Definition reads_back (pk : Pickle) (v : value) : Prop :=
  loads pk (dumps pk v) = Some v.

(** A codec of two entries, for instances: it writes the empty mapping
    and the mapping [{x: 1}] under different names and reads both back. *)
Definition two_entry_codec : Pickle :=
  mkPickle
    (fun v => if py_truth v then "full"%string else "empty"%string)
    (fun s => if String.eqb s "empty" then Some (VData ∅)
              else if String.eqb s "full" then Some (VData {["x" := VInt 1]})
              else None).

(** A [FlowState] whose backing mapping is [d]. *)
Definition state_of (d : gmap string value) : FlowState.t :=
  FlowState.mk {["data" := VData d]}.

(** * Properties *)

(** ** Arithmetic of the identifier layout *)

Section Layout.

Lemma land_mask32 (a : Z) : Z.land a 0xFFFFFFFF = a mod 2 ^ 32.
Proof. change 0xFFFFFFFF with (Z.ones 32). apply Z.land_ones. lia. Qed.

Lemma land_mask29 (a : Z) : Z.land a 0x1FFFFFFF = a mod 2 ^ 29.
Proof. change 0x1FFFFFFF with (Z.ones 29). apply Z.land_ones. lia. Qed.

Lemma mask32_range (a : Z) : 0 <= Z.land a 0xFFFFFFFF < 2 ^ 32.
Proof. rewrite land_mask32. apply Z.mod_pos_bound. lia. Qed.

Lemma mask29_range (a : Z) : 0 <= Z.land a 0x1FFFFFFF < 2 ^ 29.
Proof. rewrite land_mask29. apply Z.mod_pos_bound. lia. Qed.

(** A word below [2 ^ n] shares no bit with a multiple of [2 ^ n]. *)
Lemma low_high_disjoint (n lo hi : Z) :
  0 <= n -> 0 <= lo < 2 ^ n -> Z.land lo (Z.shiftl hi n) = 0.
Proof.
  intros Hn Hlo. apply Z.bits_inj'. intros k Hk.
  rewrite Z.land_spec, Z.bits_0.
  destruct (Z.lt_ge_cases k n) as [Hlt|Hge].
  - rewrite Z.shiftl_spec_low by lia. apply andb_false_r.
  - destruct (Z.eq_dec lo 0) as [->|Hne].
    + rewrite Z.bits_0. reflexivity.
    + rewrite (Z.bits_above_log2 lo k); [reflexivity|lia|].
      apply Z.lt_le_trans with n; [|lia].
      apply Z.log2_lt_pow2; lia.
Qed.

Lemma lor_low_high (n lo hi : Z) :
  0 <= n -> 0 <= lo < 2 ^ n ->
  Z.lor lo (Z.shiftl hi n) = hi * 2 ^ n + lo.
Proof.
  intros Hn Hlo.
  rewrite <- Z.add_nocarry_lor by (apply low_high_disjoint; lia).
  rewrite Z.shiftl_mul_pow2 by lia. lia.
Qed.

(** The three fields do not overlap: the packed word is their sum. *)
Lemma pack_sum (pp tb b : Z) :
  0 <= tb < 2 ^ 29 -> 0 <= b < 2 ^ 32 ->
  Z.lor (Z.lor (Z.shiftl tb 32) b) (Z.shiftl pp 61)
  = pp * 2 ^ 61 + tb * 2 ^ 32 + b.
Proof.
  intros Htb Hb.
  rewrite (Z.lor_comm (Z.shiftl tb 32) b).
  rewrite (lor_low_high 32 b tb) by lia.
  rewrite (lor_low_high 61 (tb * 2 ^ 32 + b) pp) by lia.
  lia.
Qed.

End Layout.

(** ** The identifier allocator *)

Section Allocator.

Import GrrMessage.

(** [GenerateTaskID], run. *)
Lemma GenerateTaskID_run (self : t) (ushort now_ms : Z) (w : World) :
  GenerateTaskID self ushort now_ms w
  = (Z.lor (Z.lor (Z.shiftl (Z.land now_ms 0x1FFFFFFF) 32)
                  (next_base w ushort))
           (Z.shiftl (max_priority - priority self) 61),
     mkWorld (GrrMessage_next_id_base w) (next_base w ushort)
             (trace w ++ alloc_events w ushort)).
Proof.
  unfold GenerateTaskID, with_lock, alloc_events, next_base, when, ret.
  unfold mbind, M_bind, mret, M_ret, emit, read_next_id_base,
    write_next_id_base; simpl.
  destruct (_ <? _); simpl; rewrite <- ?app_assoc; reflexivity.
Qed.

Lemma init_id_run (self : Task.t) (ushort now_ms : Z) (w : World) :
  Task.id self = 0 ->
  Task.init_id self ushort now_ms w
  = (Task.mk (Z.shiftl (Z.land now_ms 0xFFFFFFFF) 32 + next_base w ushort)
             (Task.priority self),
     mkWorld (GrrMessage_next_id_base w) (next_base w ushort)
             (trace w ++ alloc_events w ushort)).
Proof.
  intros Hid.
  unfold Task.init_id, with_lock, alloc_events, next_base, when, ret.
  rewrite Hid; simpl.
  unfold mbind, M_bind, mret, M_ret, emit, read_next_id_base,
    write_next_id_base; simpl.
  destruct (_ <? _); simpl; rewrite <- ?app_assoc; reflexivity.
Qed.

Lemma next_base_range (w : World) (ushort : Z) :
  0 <= next_base w ushort < 2 ^ 32.
Proof. apply mask32_range. Qed.

(** The identifier as a sum of its three fields. *)
Lemma GenerateTaskID_sum (self : t) (ushort now_ms : Z) (w : World) :
  fst (GenerateTaskID self ushort now_ms w)
  = (max_priority - priority self) * 2 ^ 61
    + (now_ms mod 2 ^ 29) * 2 ^ 32
    + next_base w ushort.
Proof.
  rewrite GenerateTaskID_run; simpl fst.
  rewrite pack_sum.
  - rewrite land_mask29. reflexivity.
  - apply mask29_range.
  - apply next_base_range.
Qed.

(** The wrap test of line 52 fires exactly when the sum passes [2 ^ 32]. *)
Lemma wrap_test (w : World) (ushort : Z) :
  0 <= Task_next_id_base w < 2 ^ 32 -> 0 <= ushort < 2 ^ 16 ->
  (next_base w ushort <? Task_next_id_base w)
  = (2 ^ 32 <=? Task_next_id_base w + (ushort + 1)).
Proof.
  intros Hb Hr. unfold next_base. rewrite land_mask32.
  set (b := Task_next_id_base w) in *.
  destruct (Z.leb_spec (2 ^ 32) (b + (ushort + 1))) as [Hwrap|Hno].
  - replace (b + (ushort + 1)) with ((b + (ushort + 1) - 2 ^ 32) + 1 * 2 ^ 32)
      by lia.
    rewrite Z.mod_add by lia. rewrite Z.mod_small by lia.
    apply Z.ltb_lt. lia.
  - rewrite Z.mod_small by lia. apply Z.ltb_ge. lia.
Qed.

End Allocator.

Section AllocatorClaims.

Import GrrMessage.

(** C1. Two identifiers minted at different priorities in [0,7]: the one
    of the higher priority is the smaller number, whatever the two
    timestamps, the two draws and the two states of the counter.  Taking
    the same timestamp, draw and world on both sides gives the
    same-timestamp, same-base case. *)
Theorem higher_priority_sorts_first
    (m1 m2 : t) (u1 u2 t1 t2 : Z) (w1 w2 : World) :
  0 <= priority m1 <= 7 -> 0 <= priority m2 <= 7 ->
  priority m1 < priority m2 ->
  fst (GenerateTaskID m2 u2 t2 w2) < fst (GenerateTaskID m1 u1 t1 w1).
Proof.
  intros H1 H2 Hlt. rewrite !GenerateTaskID_sum. unfold max_priority.
  pose proof (next_base_range w1 u1). pose proof (next_base_range w2 u2).
  pose proof (Z.mod_pos_bound t1 (2 ^ 29) ltac:(lia)).
  pose proof (Z.mod_pos_bound t2 (2 ^ 29) ltac:(lia)).
  lia.
Qed.

Lemma higher_priority_sorts_first_witness :
  0 <= priority (blank_message 3) <= 7 /\
  0 <= priority (blank_message 7) <= 7 /\
  priority (blank_message 3) < priority (blank_message 7) /\
  fst (GenerateTaskID (blank_message 7) 41 1000 world0)
  < fst (GenerateTaskID (blank_message 3) 41 1000 world0).
Proof.
  assert (H3 : 0 <= priority (blank_message 3) <= 7) by (simpl; lia).
  assert (H7 : 0 <= priority (blank_message 7) <= 7) by (simpl; lia).
  assert (Hlt : priority (blank_message 3) < priority (blank_message 7))
    by (simpl; lia).
  split; [exact H3|]. split; [exact H7|]. split; [exact Hlt|].
  exact (higher_priority_sorts_first (blank_message 3) (blank_message 7)
           41 41 1000 1000 world0 world0 H3 H7 Hlt).
Defined.

(** C2. For a priority in [0,7], a time [now_ms] and the base [b] the
    allocation commits, the identifier is
    [((7 - priority) << 61) | ((now_ms mod 2^29) << 32) | b]; [b] lies in
    [0, 2^32), the identifier fits 64 bits, and its bits 63-61 are
    [7 - priority], a number in [0,7]. *)
Theorem GenerateTaskID_layout
    (self : t) (ushort now_ms : Z) (w : World) (b : Z) :
  0 <= priority self <= 7 ->
  Task_next_id_base (snd (GenerateTaskID self ushort now_ms w)) = b ->
  let task_id := fst (GenerateTaskID self ushort now_ms w) in
  task_id = Z.lor (Z.lor (Z.shiftl (7 - priority self) 61)
                         (Z.shiftl (now_ms mod 2 ^ 29) 32)) b
  /\ 0 <= b < 2 ^ 32
  /\ 0 <= task_id < 2 ^ 64
  /\ Z.land (Z.shiftr task_id 61) 7 = 7 - priority self
  /\ 0 <= Z.land (Z.shiftr task_id 61) 7 <= 7.
Proof.
  intros Hp Hb task_id.
  assert (Hbase : b = next_base w ushort).
  { rewrite GenerateTaskID_run in Hb. simpl in Hb. congruence. }
  pose proof (next_base_range w ushort) as Hr. rewrite <- Hbase in Hr.
  pose proof (Z.mod_pos_bound now_ms (2 ^ 29) ltac:(lia)) as Ht.
  assert (Hsum : task_id
                 = (7 - priority self) * 2 ^ 61
                   + (now_ms mod 2 ^ 29) * 2 ^ 32 + b).
  { unfold task_id. rewrite GenerateTaskID_sum, <- Hbase. reflexivity. }
  assert (Hhigh : Z.shiftr task_id 61 = 7 - priority self).
  { rewrite Z.shiftr_div_pow2 by lia. rewrite Hsum.
    rewrite <- Z.add_assoc, Z.add_comm, Z.div_add by lia.
    rewrite Z.div_small by lia. lia. }
  assert (Hbits : Z.land (Z.shiftr task_id 61) 7 = 7 - priority self).
  { rewrite Hhigh. change 7 with (Z.ones 3) at 2.
    rewrite Z.land_ones by lia. apply Z.mod_small. lia. }
  split; [|split; [|split; [|split]]].
  - rewrite Hsum.
    rewrite <- (pack_sum (7 - priority self) (now_ms mod 2 ^ 29) b) by lia.
    rewrite (Z.lor_comm (Z.lor _ b)), Z.lor_assoc. reflexivity.
  - exact Hr.
  - rewrite Hsum. lia.
  - exact Hbits.
  - rewrite Hbits. lia.
Qed.

Lemma GenerateTaskID_layout_witness :
  0 <= priority (blank_message 3) <= 7 /\
  Task_next_id_base (snd (GenerateTaskID (blank_message 3) 41 1000 world0))
  = 42 /\
  Z.land (Z.shiftr (fst (GenerateTaskID (blank_message 3) 41 1000 world0)) 61)
         7 = 4.
Proof.
  assert (Hp : 0 <= priority (blank_message 3) <= 7) by (simpl; lia).
  assert (Hb : Task_next_id_base
                 (snd (GenerateTaskID (blank_message 3) 41 1000 world0)) = 42)
    by reflexivity.
  split; [exact Hp|]. split; [exact Hb|].
  exact (proj1 (proj2 (proj2 (proj2
    (GenerateTaskID_layout (blank_message 3) 41 1000 world0 42 Hp Hb))))).
Defined.

(** C8. From a base [b] in [0, 2^32) and a 16-bit draw [r], one allocation
    leaves the shared counter at [(b + (r + 1)) mod 2^32]; the step
    [r + 1] is positive, so the counter moves; the log shows the sleep
    exactly when the sum passes [2^32], and the same wrapped value is
    written either way. *)
Theorem allocation_step (self : t) (r now_ms : Z) (w : World) :
  0 <= Task_next_id_base w < 2 ^ 32 -> 0 <= r < 2 ^ 16 ->
  let b := Task_next_id_base w in
  let w' := snd (GenerateTaskID self r now_ms w) in
  Task_next_id_base w' = (b + (r + 1)) mod 2 ^ 32
  /\ 0 < r + 1
  /\ Task_next_id_base w' <> b
  /\ trace w'
     = trace w
       ++ [Acquire cls_Task; ReadBase cls_Task]
       ++ (if 2 ^ 32 <=? b + (r + 1) then [Sleep] else [])
       ++ [WriteBase cls_Task ((b + (r + 1)) mod 2 ^ 32); Release cls_Task].
Proof.
  intros Hb Hr b w'. unfold w'. rewrite GenerateTaskID_run. simpl snd.
  simpl Task_next_id_base. simpl trace. unfold alloc_events.
  rewrite (wrap_test w r Hb Hr). unfold next_base. rewrite land_mask32.
  fold b. split; [reflexivity|]. split; [lia|]. split; [|reflexivity].
  destruct (Z.le_gt_cases (2 ^ 32) (b + (r + 1))) as [Hwrap|Hno].
  - replace (b + (r + 1)) with ((b + (r + 1) - 2 ^ 32) + 1 * 2 ^ 32) by lia.
    rewrite Z.mod_add by lia. rewrite Z.mod_small by (subst b; lia).
    subst b. lia.
  - rewrite Z.mod_small by (subst b; lia). lia.
Qed.

Lemma allocation_step_witness :
  0 <= Task_next_id_base (mkWorld 0 0xFFFFFFF0 []) < 2 ^ 32 /\
  0 <= 0x20 < 2 ^ 16 /\
  Task_next_id_base
    (snd (GenerateTaskID (blank_message 3) 0x20 1000
            (mkWorld 0 0xFFFFFFF0 [])))
  = (0xFFFFFFF0 + (0x20 + 1)) mod 2 ^ 32.
Proof.
  assert (Hb : 0 <= Task_next_id_base (mkWorld 0 0xFFFFFFF0 []) < 2 ^ 32)
    by (simpl; lia).
  assert (Hr : 0 <= 0x20 < 2 ^ 16) by lia.
  split; [exact Hb|]. split; [exact Hr|].
  exact (proj1 (allocation_step (blank_message 3) 0x20 1000
                  (mkWorld 0 0xFFFFFFF0 []) Hb Hr)).
Defined.

(** C10. An allocation by [GrrMessage.GenerateTaskID] takes [Task.lock],
    reads [Task.next_id_base], writes it and releases the lock; no event
    touches the class [GrrMessage]; [GrrMessage.next_id_base] keeps its
    value and has no influence on the result.  The identifier block of
    [Task.__init__] goes through the same counter under the same lock. *)
Theorem allocators_share_Task_counter
    (self : t) (legacy : Task.t) (ushort now_ms g : Z) (w : World) :
  let run := GenerateTaskID self ushort now_ms w in
  let old := Task.init_id (Task.mk 0 (Task.priority legacy)) ushort now_ms w in
  trace (snd run) = trace w ++ alloc_events w ushort
  /\ Forall (fun e => event_class e <> Some cls_GrrMessage)
            (alloc_events w ushort)
  /\ Task_next_id_base (snd run) = next_base w ushort
  /\ GrrMessage_next_id_base (snd run) = GrrMessage_next_id_base w
  /\ fst (GenerateTaskID self ushort now_ms (with_GrrMessage_base g w))
     = fst run
  /\ Task_next_id_base
       (snd (GenerateTaskID self ushort now_ms (with_GrrMessage_base g w)))
     = Task_next_id_base (snd run)
  /\ trace (snd old) = trace (snd run)
  /\ Task_next_id_base (snd old) = Task_next_id_base (snd run)
  /\ GrrMessage_next_id_base (snd old) = GrrMessage_next_id_base w.
Proof.
  intros run old. unfold run, old.
  rewrite !GenerateTaskID_run, init_id_run by reflexivity. simpl.
  repeat split.
  unfold alloc_events. destruct (_ <? _); simpl;
    repeat constructor; discriminate.
Qed.

End AllocatorClaims.

(** ** FlowState *)

Section FlowStateClaims.

Import FlowState.

Variable inherited : gmap string class_attr.

Lemma data_insert_data (dm : gmap string value) (v : value) :
  data (mk (<["data" := v]> dm)) = v.
Proof. unfold data; simpl. rewrite lookup_insert_eq. reflexivity. Qed.

Lemma Register_run (self : t) (d : gmap string value) (item : string)
    (v : value) :
  data self = VData d ->
  Register self item v
  = Ok (mk (<["data" := VData (<[item := v]> d)]> (__dict__ self))).
Proof. intros Hd. unfold Register. rewrite Hd. reflexivity. Qed.

Lemma get_run (self : t) (d : gmap string value) (item : string)
    (default : value) :
  data self = VData d ->
  get self item default
  = Ok (match d !! item with Some x => x | None => default end).
Proof. intros Hd. unfold get. rewrite Hd. reflexivity. Qed.

(** [__setattr__] on a state whose backing mapping is a [DataObject]. *)
Lemma setattr_run (self : t) (d : gmap string value) (item : string)
    (v : value) :
  data self = VData d ->
  __setattr__ inherited self item v
  = if is_member inherited self item
    then Ok (mk (<[item := v]> (__dict__ self)))
    else if bool_decide (is_Some (d !! item))
         then Ok (mk (<["data" := VData (<[item := v]> d)]> (__dict__ self)))
         else Raise unregistered.
Proof.
  intros Hd. unfold __setattr__, is_member.
  destruct (_ || _); [reflexivity|].
  rewrite Hd; simpl. destruct (bool_decide _); reflexivity.
Qed.

Lemma is_member_insert_data (self : t) (item : string) (v : value) :
  is_member inherited self item = false ->
  is_member inherited (mk (<["data" := v]> (__dict__ self))) item = false.
Proof.
  unfold is_member; simpl. intros H.
  apply orb_false_iff in H as [Hc Hi]. rewrite Hc; simpl.
  apply bool_decide_eq_false in Hi. apply bool_decide_eq_false.
  intros [x Hx]. apply Hi.
  destruct (decide (item = "data")) as [->|Hne].
  - exfalso. unfold class_has, class_attrs in Hc.
    rewrite (lookup_union_Some_l own_attrs inherited "data" (Attr VNone))
      in Hc by reflexivity.
    discriminate.
  - rewrite lookup_insert_ne in Hx by congruence. eauto.
Qed.

(** A name the class statement defines is assigned in the instance
    dictionary, registered or not, whatever the class inherits. *)
Lemma setattr_own_attr (self : t) (v : value) :
  __setattr__ inherited self "data_store_type" v
  = Ok (mk (<["data_store_type" := v]> (__dict__ self))).
Proof.
  unfold __setattr__, class_has, class_attrs.
  rewrite (lookup_union_Some_l own_attrs inherited "data_store_type"
             (Attr (VStr "bytes"))) by reflexivity.
  reflexivity.
Qed.

(** C4 (amended). On a state backed by a [DataObject], assigning [item]
    raises exactly when [item] is neither a class or instance member nor a
    key of the backing mapping, and the exception is then the
    unregistered-field error.  For a name [x] that is no member,
    [Register(x, 1); x = 2; get(x, 0)] gives 2. *)
Theorem setattr_unregistered_iff
    (self : t) (d : gmap string value) (item : string) (v : value) :
  data self = VData d ->
  (raises (__setattr__ inherited self item v)
   <-> is_member inherited self item = false /\ d !! item = None)
  /\ (raises (__setattr__ inherited self item v) ->
      __setattr__ inherited self item v = Raise unregistered)
  /\ (is_member inherited self "x" = false ->
      (s1 ← Register self "x" (VInt 1);
       s2 ← __setattr__ inherited s1 "x" (VInt 2);
       get s2 "x" (VInt 0)) = Ok (VInt 2)).
Proof.
  intros Hd. rewrite (setattr_run self d item v Hd).
  split; [|split].
  - destruct (is_member inherited self item); simpl.
    + split; [tauto|]. intros [? _]; discriminate.
    + destruct (bool_decide_reflect (is_Some (d !! item))) as [[x Hl]|Hl];
        simpl.
      * split; [tauto|]. intros [_ Hn]. congruence.
      * split; [|tauto]. intros _. split; [reflexivity|].
        destruct (d !! item) eqn:E; [exfalso; eauto|reflexivity].
  - destruct (is_member inherited self item); simpl; [tauto|].
    destruct (bool_decide _); simpl; tauto.
  - intros Hx. rewrite (Register_run self d "x" (VInt 1) Hd). simpl.
    rewrite (setattr_run _ (<["x" := VInt 1]> d)) by apply data_insert_data.
    rewrite (is_member_insert_data self "x" _ Hx).
    rewrite lookup_insert_eq.
    rewrite bool_decide_eq_true_2 by eauto. simpl.
    rewrite (get_run _ (<["x" := VInt 2]> (<["x" := VInt 1]> d)))
      by apply data_insert_data.
    rewrite lookup_insert_eq. reflexivity.
Qed.

(** C5 (amended). [f] is a declared field holding some value; after
    writing [v] to it, [Register(f, d)] stores [d] over [v]: every later
    [get(f, default)] returns [d]. *)
Theorem Register_overwrites
    (self : t) (m : gmap string value) (f : string)
    (v d default : value) :
  data self = VData m ->
  is_Some (m !! f) ->
  is_member inherited self f = false ->
  exists s1 s2,
    __setattr__ inherited self f v = Ok s1
    /\ Register s1 f d = Ok s2
    /\ get s2 f default = Ok d.
Proof.
  intros Hd Hreg Hmem.
  eexists _, _. split; [|split].
  - rewrite (setattr_run self m f v Hd), Hmem.
    rewrite bool_decide_eq_true_2 by exact Hreg. reflexivity.
  - apply Register_run. apply data_insert_data.
  - rewrite (get_run _ (<[f := d]> (<[f := v]> m)))
      by apply data_insert_data.
    rewrite lookup_insert_eq. reflexivity.
Qed.

Lemma size_one_lookup (m : gmap string value) (k : string) (c : value) :
  size m = 1%nat -> m !! k = Some c -> m = {[k := c]}.
Proof.
  intros Hsz Hk.
  assert (Hrest : delete k m = ∅).
  { apply map_size_empty_inv.
    rewrite map_size_delete_Some by eauto. rewrite Hsz. reflexivity. }
  rewrite <- (insert_delete_id m k c Hk), Hrest. apply insert_empty.
Qed.

(** C6 (amended). On a state backed by the mapping [m], [Empty] returns
    true exactly when [m] holds the single entry [context] and the value
    under it is empty (false under the truth test).  With a single entry
    of another name the call raises [AttributeError]; with any other
    number of entries it returns false.  So it is true on a state holding
    just an empty [context], and false on the state [FlowState()] builds
    (the base initialiser leaving the instance as it finds it), whose
    mapping has no entry at all. *)
Theorem Empty_iff (self : t) (m : gmap string value) :
  data self = VData m ->
  (Empty self = Ok true
   <-> exists c, m = {["context" := c]} /\ py_truth c = false)
  /\ (size m = 1%nat -> m !! "context" = None ->
      Empty self = Raise (AttributeError "context"))
  /\ (size m <> 1%nat -> Empty self = Ok false)
  /\ Empty (state_of {["context" := VData ∅]}) = Ok true
  /\ (s ← __init__ inherited Ok; Empty s) = Ok false.
Proof.
  intros Hd. unfold Empty. rewrite Hd. simpl.
  split; [|split; [|split; [|split]]].
  - split.
    + destruct (Z.eqb_spec (Z.of_nat (size m)) 1) as [Hsz|Hsz];
        [|discriminate].
      unfold DataObject.__getattr__.
      destruct (m !! "context") as [c|] eqn:Hc; simpl; [|discriminate].
      intros Ht. exists c. split.
      * apply size_one_lookup; [lia|exact Hc].
      * destruct (py_truth c); [discriminate|reflexivity].
    + intros (c & -> & Ht). rewrite map_size_singleton. simpl.
      unfold DataObject.__getattr__. rewrite lookup_singleton_eq. simpl.
      rewrite Ht. reflexivity.
  - intros Hsz Hc. rewrite Hsz. simpl.
    unfold DataObject.__getattr__. rewrite Hc. reflexivity.
  - intros Hsz.
    destruct (Z.eqb_spec (Z.of_nat (size m)) 1) as [Heq|]; [lia|reflexivity].
  - reflexivity.
  - unfold __init__, __setattr__, class_has, class_attrs.
    rewrite (lookup_union_Some_l own_attrs inherited "data" (Attr VNone))
      by reflexivity.
    reflexivity.
Qed.

End FlowStateClaims.

(** Instances on the state [FlowState()] builds and its neighbours; the
    class statement's own attributes shadow whatever is inherited, so the
    inherited part is left empty here. *)

Lemma setattr_unregistered_iff_witness :
  FlowState.data (state_of ∅) = VData ∅
  /\ raises (FlowState.__setattr__ ∅ (state_of ∅) "y" (VInt 1))
  /\ (s1 ← FlowState.Register (state_of ∅) "x" (VInt 1);
      s2 ← FlowState.__setattr__ ∅ s1 "x" (VInt 2);
      FlowState.get s2 "x" (VInt 0)) = Ok (VInt 2).
Proof.
  assert (Hd : FlowState.data (state_of ∅) = VData ∅) by reflexivity.
  pose proof (setattr_unregistered_iff ∅ (state_of ∅) ∅ "y" (VInt 1) Hd)
    as (Hiff & _ & Hx).
  split; [exact Hd|]. split.
  - apply Hiff. split; reflexivity.
  - apply Hx. reflexivity.
Defined.

(** C4, as stated, fails on a member name: [data_store_type] was never
    registered and is no key of the backing mapping, yet assigning it does
    not raise; the value lands in the instance dictionary. *)
Lemma setattr_member_never_registered :
  FlowState.data (state_of ∅) = VData ∅
  /\ (∅ : gmap string value) !! "data_store_type" = None
  /\ FlowState.__setattr__ ∅ (state_of ∅) "data_store_type" (VStr "blob")
     = Ok (FlowState.mk (<["data_store_type" := VStr "blob"]>
                           {["data" := VData ∅]}))
  /\ ~ raises (FlowState.__setattr__ ∅ (state_of ∅) "data_store_type"
                 (VStr "blob")).
Proof.
  split; [reflexivity|]. split; [reflexivity|]. split.
  - vm_compute. reflexivity.
  - vm_compute. tauto.
Qed.

Lemma Register_overwrites_witness :
  FlowState.data (state_of {["x" := VInt 1]}) = VData {["x" := VInt 1]}
  /\ is_Some (({["x" := VInt 1]} : gmap string value) !! "x")
  /\ is_member ∅ (state_of {["x" := VInt 1]}) "x" = false
  /\ exists s1 s2,
       FlowState.__setattr__ ∅ (state_of {["x" := VInt 1]}) "x" (VInt 2)
       = Ok s1
       /\ FlowState.Register s1 "x" (VInt 5) = Ok s2
       /\ FlowState.get s2 "x" (VInt 0) = Ok (VInt 5).
Proof.
  assert (Hd : FlowState.data (state_of {["x" := VInt 1]})
               = VData {["x" := VInt 1]}) by reflexivity.
  assert (Hr : is_Some (({["x" := VInt 1]} : gmap string value) !! "x"))
    by (exists (VInt 1); reflexivity).
  assert (Hm : is_member ∅ (state_of {["x" := VInt 1]}) "x" = false)
    by reflexivity.
  split; [exact Hd|]. split; [exact Hr|]. split; [exact Hm|].
  exact (Register_overwrites ∅ (state_of {["x" := VInt 1]}) {["x" := VInt 1]}
           "x" (VInt 2) (VInt 5) (VInt 0) Hd Hr Hm).
Defined.

(** C5, as stated, fails: after [Register(x, 1); x = 2], a second
    [Register(x, 5)] makes [get(x, 0)] return 5, not 2. *)
Lemma Register_resets_written_value :
  (s0 ← FlowState.__init__ ∅ Ok;
   s1 ← FlowState.Register s0 "x" (VInt 1);
   s2 ← FlowState.__setattr__ ∅ s1 "x" (VInt 2);
   s3 ← FlowState.Register s2 "x" (VInt 5);
   FlowState.get s3 "x" (VInt 0)) = Ok (VInt 5)
  /\ (Ok (VInt 5) : result value) <> Ok (VInt 2).
Proof. split; [vm_compute; reflexivity | discriminate]. Qed.

Lemma Empty_iff_witness :
  FlowState.data (state_of {["context" := VData ∅]})
  = VData {["context" := VData ∅]}
  /\ FlowState.Empty (state_of {["context" := VData ∅]}) = Ok true.
Proof.
  assert (Hd : FlowState.data (state_of {["context" := VData ∅]})
               = VData {["context" := VData ∅]}) by reflexivity.
  split; [exact Hd|].
  apply (proj1 (Empty_iff ∅ (state_of {["context" := VData ∅]})
                  {["context" := VData ∅]} Hd)).
  exists (VData ∅). split; reflexivity.
Defined.

(** C6, as stated, fails: the backing mapping holds the [context]
    sub-mapping and nothing else, the sub-mapping has an entry of its own,
    and [Empty] is false. *)
Lemma Empty_false_on_used_context :
  size ({["context" := VData {["x" := VInt 1]}]} : gmap string value) = 1%nat
  /\ ({["context" := VData {["x" := VInt 1]}]} : gmap string value)
     !! "context" = Some (VData {["x" := VInt 1]})
  /\ FlowState.Empty (state_of {["context" := VData {["x" := VInt 1]}]})
     = Ok false.
Proof. repeat split; vm_compute; reflexivity. Qed.

(** ** Serialisation of FlowState *)

Section FlowStatePickle.

Import FlowState.

Variable pk : Pickle.
Variable inherited : gmap string class_attr.

Lemma ParseFromString_run (self : t) (s : string) :
  ParseFromString pk inherited self s
  = match loads pk s with
    | Some v => Ok (mk (<["data" := v]> (__dict__ self)))
    | None => Raise DecodeError
    end.
Proof.
  unfold ParseFromString, __setattr__, class_has, class_attrs.
  rewrite (lookup_union_Some_l own_attrs inherited "data" (Attr VNone))
    by reflexivity.
  destruct (loads pk s); reflexivity.
Qed.

(** Serialising, parsing and serialising again is [dumps], [loads],
    [dumps] on the backing mapping: the class adds nothing of its own to
    what the codec does. *)
Lemma Serialize_Parse_Serialize (self : t) :
  (self' ← ParseFromString pk inherited self (SerializeToString pk self);
   Ok (SerializeToString pk self'))
  = match loads pk (dumps pk (data self)) with
    | Some v => Ok (dumps pk v)
    | None => Raise DecodeError
    end.
Proof.
  rewrite ParseFromString_run. unfold SerializeToString.
  destruct (loads pk _); simpl; [|reflexivity].
  unfold data; simpl. rewrite lookup_insert_eq. reflexivity.
Qed.

(** A string the codec rejects makes the registered class raise. *)
Lemma as_class_decode_error (age : option Z) (s : string) :
  loads pk s = None ->
  cls_decode (as_class pk inherited Ok) age s = Raise DecodeError.
Proof.
  intros Hl. simpl. unfold __init__, __setattr__, class_has, class_attrs.
  rewrite (lookup_union_Some_l own_attrs inherited "data" (Attr VNone))
    by reflexivity.
  simpl. rewrite ParseFromString_run, Hl. reflexivity.
Qed.

End FlowStatePickle.

(** ** GrrMessage: construction and payload *)

Section MessageClaims.

Import GrrMessage.

(** C3 (amended).  Three cases of the constructor.  A payload that is an
    [RDFValue], tests true, serialises and exposes the priority [p] gives
    a message of priority [p], whatever priority the base initialiser had
    set from the keyword arguments.  A payload of any kind that tests false
    ([None] among them) is passed over: the message keeps the priority and
    the payload fields it had.  A payload that tests true and is no
    [RDFValue] makes the constructor raise [RuntimeError]. *)
Theorem payload_priority_wins
    (self : t) (v : RDFValue) (s : string) (p ushort now_ms : Z)
    (w : World) (other : pyobj) (q : option Z) :
  (nonzero v = true ->
   SerializeToString v = Ok s ->
   priority_attr v = Some p ->
   exists m,
     fst (__init__ self (PyRDFValue v) ushort now_ms w) = Ok m
     /\ priority m = p
     /\ args m = s
     /\ args_rdf_name m = class_name v)
  /\ (pyobj_truth other = false ->
      exists m,
        fst (__init__ self other ushort now_ms w) = Ok m
        /\ priority m = priority self
        /\ args m = args self
        /\ args_age m = args_age self
        /\ args_rdf_name m = args_rdf_name self)
  /\ fst (__init__ self (PyObject true q) ushort now_ms w)
     = Raise (RuntimeError "Payload must be an RDFValue.").
Proof.
  split; [|split].
  - intros Ht Hs Hp. unfold __init__, set_payload. simpl.
    rewrite Ht, Hs, Hp. simpl.
    destruct (_age v); simpl;
      (destruct (Z.eqb (task_id self) 0);
       [unfold mbind, M_bind; rewrite GenerateTaskID_run; simpl
       |simpl]; eexists; repeat split).
  - intros Hf. unfold __init__. rewrite Hf.
    destruct (Z.eqb (task_id self) 0);
      [unfold mbind, M_bind; rewrite GenerateTaskID_run; simpl
      |simpl]; eexists; repeat split.
  - reflexivity.
Qed.

(** C7. On an envelope whose type tag is empty the getter returns
    nothing; on one whose tag the registry does not know it returns the
    stored bytes decoded as the fallback [RDFString], carrying
    [args_age]; in neither case does it raise. *)
Theorem payload_getter_cases (classes : gmap string RDFClass) (self : t) :
  (args_rdf_name self = "" -> payload classes self = Ok None)
  /\ (args_rdf_name self <> "" ->
      classes !! args_rdf_name self = None ->
      payload classes self
      = Ok (Some (mkRDFInstance "RDFString" (args_age self)
                                (VStr (args self)))))
  /\ (args_rdf_name self = "" \/ classes !! args_rdf_name self = None ->
      ~ raises (payload classes self)).
Proof.
  unfold payload. split; [|split].
  - intros ->. reflexivity.
  - intros Hne Hmiss. apply String.eqb_neq in Hne. rewrite Hne, Hmiss.
    reflexivity.
  - intros Hcase.
    destruct (String.eqb_spec (args_rdf_name self) "") as [He|Hne]; simpl.
    + tauto.
    + destruct Hcase as [He|Hmiss]; [contradiction|].
      rewrite Hmiss. simpl. tauto.
Qed.

(** With a tag the registry knows, the getter is that class's decoding
    of the stored bytes, and an error there comes out of the getter. *)
Lemma payload_registered (classes : gmap string RDFClass) (self : t)
    (c : RDFClass) :
  args_rdf_name self <> ""%string ->
  classes !! args_rdf_name self = Some c ->
  payload classes self
  = st ← cls_decode c (args_age self) (args self);
    Ok (Some (mkRDFInstance (cls_name c) (args_age self) st)).
Proof.
  intros Hne Hhit. unfold payload.
  apply String.eqb_neq in Hne. rewrite Hne, Hhit. reflexivity.
Qed.

End MessageClaims.

Lemma payload_priority_wins_witness :
  nonzero probe = true /\ SerializeToString probe = Ok "bytes"%string
  /\ priority_attr probe = Some 3
  /\ (exists m,
        fst (GrrMessage.__init__ (blank_message 5) (PyRDFValue probe)
               41 1000 world0) = Ok m
        /\ GrrMessage.priority m = 3
        /\ GrrMessage.args m = "bytes"%string
        /\ GrrMessage.args_rdf_name m = "Probe"%string)
  /\ pyobj_truth PyNone = false
  /\ (exists m,
        fst (GrrMessage.__init__ (blank_message 5) PyNone 41 1000 world0)
        = Ok m
        /\ GrrMessage.priority m = 5).
Proof.
  pose proof (payload_priority_wins (blank_message 5) probe "bytes" 3 41 1000
                world0 PyNone None) as (Hadopt & Hskip & _).
  split; [reflexivity|]. split; [reflexivity|]. split; [reflexivity|].
  split; [exact (Hadopt eq_refl eq_refl eq_refl)|].
  split; [reflexivity|].
  destruct (Hskip eq_refl) as (m & Hm & Hp & _).
  exists m. split; [exact Hm|exact Hp].
Defined.

(** C3, as stated, fails twice.  A payload that is an [RDFValue] with
    priority 3 but tests false is skipped by [if payload:], and the message
    keeps the caller's priority 5.  An object with priority 3 that tests
    true and is no [RDFValue] (a non-empty [DataObject], say) makes the
    setter raise, and there is no message at all. *)
Lemma payload_priority_not_adopted :
  (exists m,
     fst (GrrMessage.__init__ (blank_message 5)
            (PyRDFValue (mkRDFValue "Probe" (Ok "") None (Some 3) false))
            41 1000 world0) = Ok m
     /\ GrrMessage.priority m = 5)
  /\ fst (GrrMessage.__init__ (blank_message 5) (PyObject true (Some 3))
            41 1000 world0)
     = Raise (RuntimeError "Payload must be an RDFValue.").
Proof.
  split.
  - eexists. split; [vm_compute; reflexivity | reflexivity].
  - vm_compute. reflexivity.
Qed.

Lemma payload_getter_cases_witness :
  GrrMessage.args_rdf_name (GrrMessage.mk 1 1 "raw" (Some 7) "Unheard") <> ""%string
  /\ (∅ : gmap string RDFClass) !! "Unheard" = None
  /\ GrrMessage.payload ∅ (GrrMessage.mk 1 1 "raw" (Some 7) "Unheard")
     = Ok (Some (mkRDFInstance "RDFString" (Some 7) (VStr "raw")))
  /\ GrrMessage.payload ∅ (GrrMessage.mk 1 1 "" None "") = Ok None.
Proof.
  assert (Hne : GrrMessage.args_rdf_name
                  (GrrMessage.mk 1 1 "raw" (Some 7) "Unheard") <> ""%string)
    by discriminate.
  assert (Hmiss : (∅ : gmap string RDFClass)
                  !! GrrMessage.args_rdf_name
                       (GrrMessage.mk 1 1 "raw" (Some 7) "Unheard") = None)
    by reflexivity.
  split; [exact Hne|]. split; [exact Hmiss|]. split.
  - exact (proj1 (proj2 (payload_getter_cases ∅
             (GrrMessage.mk 1 1 "raw" (Some 7) "Unheard"))) Hne Hmiss).
  - exact (proj1 (payload_getter_cases ∅ (GrrMessage.mk 1 1 "" None ""))
             eq_refl).
Defined.


(** * Further properties *)

(** ** Reading an identifier back *)

Section IdentifierFields.

Import GrrMessage.

Lemma sum_low32 (hi b : Z) :
  0 <= b < 2 ^ 32 -> Z.land (hi * 2 ^ 32 + b) 0xFFFFFFFF = b.
Proof.
  intros Hb. rewrite land_mask32, Z.add_comm, Z.mod_add by lia.
  apply Z.mod_small. exact Hb.
Qed.

Lemma sum_high (hi b : Z) :
  0 <= b < 2 ^ 32 -> Z.shiftr (hi * 2 ^ 32 + b) 32 = hi.
Proof.
  intros Hb. rewrite Z.shiftr_div_pow2 by lia.
  rewrite Z.add_comm, Z.div_add by lia.
  rewrite Z.div_small by lia. reflexivity.
Qed.

Lemma task_id_low32 (self : t) (ushort now_ms : Z) (w : World) :
  Z.land (fst (GenerateTaskID self ushort now_ms w)) 0xFFFFFFFF
  = next_base w ushort.
Proof.
  rewrite GenerateTaskID_sum.
  replace ((max_priority - priority self) * 2 ^ 61
           + now_ms mod 2 ^ 29 * 2 ^ 32 + next_base w ushort)
    with (((max_priority - priority self) * 2 ^ 29 + now_ms mod 2 ^ 29)
          * 2 ^ 32 + next_base w ushort) by lia.
  apply sum_low32, next_base_range.
Qed.

(** The three fields of an identifier are read back with the shifts and
    masks of the layout, for any priority, time, draw and counter: the low
    32 bits are the committed base, the next 29 bits the time modulo
    [2^29], and what lies above bit 61 is [7 - priority]. *)
Theorem GenerateTaskID_fields (self : t) (ushort now_ms : Z) (w : World) :
  let task_id := fst (GenerateTaskID self ushort now_ms w) in
  Z.land task_id 0xFFFFFFFF
  = Task_next_id_base (snd (GenerateTaskID self ushort now_ms w))
  /\ Z.land (Z.shiftr task_id 32) 0x1FFFFFFF = now_ms mod 2 ^ 29
  /\ Z.shiftr task_id 61 = max_priority - priority self.
Proof.
  intros task_id. unfold task_id. rewrite GenerateTaskID_sum.
  rewrite GenerateTaskID_run. simpl snd. simpl Task_next_id_base.
  pose proof (next_base_range w ushort) as Hb.
  pose proof (Z.mod_pos_bound now_ms (2 ^ 29) ltac:(lia)) as Ht.
  set (pp := max_priority - priority self).
  set (tb := now_ms mod 2 ^ 29) in *.
  set (b := next_base w ushort) in *.
  replace (pp * 2 ^ 61 + tb * 2 ^ 32 + b)
    with ((pp * 2 ^ 29 + tb) * 2 ^ 32 + b) by lia.
  split; [|split].
  - apply sum_low32. exact Hb.
  - rewrite sum_high by exact Hb. rewrite land_mask29.
    rewrite Z.add_comm, Z.mod_add by lia. apply Z.mod_small. exact Ht.
  - replace 61 with (32 + 29) by lia.
    rewrite <- Z.shiftr_shiftr by lia. rewrite sum_high by exact Hb.
    rewrite Z.shiftr_div_pow2 by lia.
    rewrite Z.add_comm, Z.div_add by lia.
    rewrite Z.div_small by lia. reflexivity.
Qed.

(** Two allocations in a row never return the same identifier: whatever
    the priorities, the times and the first draw, a second 16-bit draw
    moves the base, and the base is the low 32 bits of the identifier. *)
Theorem consecutive_ids_differ
    (m1 m2 : t) (u1 u2 t1 t2 : Z) (w : World) :
  0 <= u2 < 2 ^ 16 ->
  fst (GenerateTaskID m2 u2 t2 (snd (GenerateTaskID m1 u1 t1 w)))
  <> fst (GenerateTaskID m1 u1 t1 w).
Proof.
  intros Hu Heq.
  pose proof (task_id_low32 m1 u1 t1 w) as Hl1.
  pose proof (task_id_low32 m2 u2 t2 (snd (GenerateTaskID m1 u1 t1 w)))
    as Hl2.
  rewrite Heq, Hl1 in Hl2. clear Heq Hl1.
  rewrite GenerateTaskID_run in Hl2.
  unfold next_base at 2 in Hl2. simpl in Hl2.
  pose proof (next_base_range w u1) as Hb.
  set (b := next_base w u1) in *.
  rewrite land_mask32 in Hl2.
  destruct (Z.le_gt_cases (2 ^ 32) (b + (u2 + 1))) as [Hwrap|Hno].
  - replace (b + (u2 + 1)) with ((b + (u2 + 1) - 2 ^ 32) + 1 * 2 ^ 32)
      in Hl2 by lia.
    rewrite Z.mod_add, Z.mod_small in Hl2 by lia. lia.
  - rewrite Z.mod_small in Hl2 by lia. lia.
Qed.

Lemma consecutive_ids_differ_witness :
  0 <= 0xFFFF < 2 ^ 16
  /\ fst (GenerateTaskID (blank_message 3) 0xFFFF 1000
            (snd (GenerateTaskID (blank_message 3) 41 1000 world0)))
     <> fst (GenerateTaskID (blank_message 3) 41 1000 world0).
Proof.
  assert (Hu : 0 <= 0xFFFF < 2 ^ 16) by lia.
  split; [exact Hu|].
  exact (consecutive_ids_differ (blank_message 3) (blank_message 3)
           41 0xFFFF 1000 1000 world0 Hu).
Defined.

(** Only the low 29 bits of the time count: shifting the clock by any
    multiple of [2^29] ms (about 6.2 days) gives the same identifier and
    the same effect on the counter. *)
Theorem timestamp_aliases (self : t) (ushort now_ms k : Z) (w : World) :
  GenerateTaskID self ushort (now_ms + k * 2 ^ 29) w
  = GenerateTaskID self ushort now_ms w.
Proof.
  rewrite !GenerateTaskID_run, !land_mask29.
  rewrite Z.mod_add by lia. reflexivity.
Qed.

(** At equal priority the time field decides: the identifier with the
    smaller time modulo [2^29] is the smaller one, whatever the bases. *)
Theorem same_priority_time_order
    (m1 m2 : t) (u1 u2 t1 t2 : Z) (w1 w2 : World) :
  priority m1 = priority m2 ->
  t1 mod 2 ^ 29 < t2 mod 2 ^ 29 ->
  fst (GenerateTaskID m1 u1 t1 w1) < fst (GenerateTaskID m2 u2 t2 w2).
Proof.
  intros Hp Ht. rewrite !GenerateTaskID_sum, Hp.
  pose proof (next_base_range w1 u1). pose proof (next_base_range w2 u2).
  lia.
Qed.

Lemma same_priority_time_order_witness :
  priority (blank_message 3) = priority (blank_message 3)
  /\ 1000 mod 2 ^ 29 < 1001 mod 2 ^ 29
  /\ fst (GenerateTaskID (blank_message 3) 0xFFFF 1000
            (mkWorld 0 0xFFFFFFF0 []))
     < fst (GenerateTaskID (blank_message 3) 0 1001 world0).
Proof.
  assert (Hp : priority (blank_message 3) = priority (blank_message 3))
    by reflexivity.
  assert (Ht : 1000 mod 2 ^ 29 < 1001 mod 2 ^ 29) by (vm_compute; reflexivity).
  split; [exact Hp|]. split; [exact Ht|].
  exact (same_priority_time_order (blank_message 3) (blank_message 3)
           0xFFFF 0 1000 1001 (mkWorld 0 0xFFFFFFF0 []) world0 Hp Ht).
Defined.

(** Two allocations in a row, same priority, same millisecond: the second
    identifier is below the first exactly when the base wrapped, which is
    exactly when the allocator slept. *)
Theorem order_inverts_iff_slept (m1 m2 : t) (u1 u2 now_ms : Z) (w : World) :
  priority m1 = priority m2 ->
  0 <= u2 < 2 ^ 16 ->
  let first := GenerateTaskID m1 u1 now_ms w in
  let second := GenerateTaskID m2 u2 now_ms (snd first) in
  (fst second < fst first <-> In Sleep (alloc_events (snd first) u2))
  /\ (fst first < fst second <-> ~ In Sleep (alloc_events (snd first) u2))
  /\ trace (snd second) = trace (snd first) ++ alloc_events (snd first) u2.
Proof.
  intros Hp Hu first second.
  assert (Hb : 0 <= Task_next_id_base (snd first) < 2 ^ 32).
  { unfold first. rewrite GenerateTaskID_run. simpl. apply next_base_range. }
  assert (Hsleep : In Sleep (alloc_events (snd first) u2)
                   <-> next_base (snd first) u2 < Task_next_id_base (snd first)).
  { unfold alloc_events.
    destruct (Z.ltb_spec (next_base (snd first) u2)
                (Task_next_id_base (snd first))) as [Hlt|Hge]; simpl.
    - split; [intros _; exact Hlt|]. intros _. right. right. left. reflexivity.
    - split; [|lia].
      intros [H|[H|[H|[H|[]]]]]; discriminate. }
  assert (Hne : next_base (snd first) u2 <> Task_next_id_base (snd first)).
  { pose proof (wrap_test (snd first) u2 Hb Hu) as Hw.
    unfold next_base in *. rewrite land_mask32 in *.
    destruct (Z.le_gt_cases (2 ^ 32) (Task_next_id_base (snd first) + (u2 + 1)))
      as [Hwrap|Hno].
    - replace (Task_next_id_base (snd first) + (u2 + 1))
        with ((Task_next_id_base (snd first) + (u2 + 1) - 2 ^ 32) + 1 * 2 ^ 32)
        by lia.
      rewrite Z.mod_add, Z.mod_small by lia. lia.
    - rewrite Z.mod_small by lia. lia. }
  assert (H1 : fst first
               = (max_priority - priority m1) * 2 ^ 61
                 + (now_ms mod 2 ^ 29) * 2 ^ 32
                 + Task_next_id_base (snd first)).
  { unfold first. rewrite GenerateTaskID_sum, GenerateTaskID_run. reflexivity. }
  assert (H2 : fst second
               = (max_priority - priority m2) * 2 ^ 61
                 + (now_ms mod 2 ^ 29) * 2 ^ 32
                 + next_base (snd first) u2).
  { unfold second. apply GenerateTaskID_sum. }
  split; [|split].
  - rewrite Hsleep, H1, H2, Hp. lia.
  - rewrite Hsleep, H1, H2, Hp. lia.
  - unfold second. rewrite (GenerateTaskID_run m2). reflexivity.
Qed.

Lemma order_inverts_iff_slept_witness :
  priority (blank_message 3) = priority (blank_message 3)
  /\ 0 <= 0x20 < 2 ^ 16
  /\ fst (GenerateTaskID (blank_message 3) 0x20 1000
            (snd (GenerateTaskID (blank_message 3) 0
                    1000 (mkWorld 0 0xFFFFFFF0 []))))
     < fst (GenerateTaskID (blank_message 3) 0 1000 (mkWorld 0 0xFFFFFFF0 [])).
Proof.
  assert (Hp : priority (blank_message 3) = priority (blank_message 3))
    by reflexivity.
  assert (Hu : 0 <= 0x20 < 2 ^ 16) by lia.
  split; [exact Hp|]. split; [exact Hu|].
  apply (proj1 (order_inverts_iff_slept (blank_message 3) (blank_message 3)
                  0 0x20 1000 (mkWorld 0 0xFFFFFFF0 []) Hp Hu)).
  vm_compute. right. right. left. reflexivity.
Defined.

(** A priority outside [0,7] leaves the 64-bit range: above 7 the
    identifier is negative, below 0 it is [2^64] or more. *)
Theorem priority_out_of_range (self : t) (ushort now_ms : Z) (w : World) :
  (7 < priority self -> fst (GenerateTaskID self ushort now_ms w) < 0)
  /\ (priority self < 0 ->
      2 ^ 64 <= fst (GenerateTaskID self ushort now_ms w)).
Proof.
  rewrite GenerateTaskID_sum. unfold max_priority.
  pose proof (next_base_range w ushort).
  pose proof (Z.mod_pos_bound now_ms (2 ^ 29) ltac:(lia)).
  split; intros Hp; lia.
Qed.

Lemma priority_out_of_range_witness :
  7 < priority (blank_message 8)
  /\ fst (GenerateTaskID (blank_message 8) 41 1000 world0) < 0.
Proof.
  assert (Hp : 7 < priority (blank_message 8)) by (simpl; lia).
  split; [exact Hp|].
  exact (proj1 (priority_out_of_range (blank_message 8) 41 1000 world0) Hp).
Defined.

End IdentifierFields.

(** ** The legacy identifier *)

Section LegacyTask.

(** A task without an identifier gets [(now_ms mod 2^32) * 2^32 + base]:
    a 64-bit number with the time in the high half and the committed base
    in the low half, in which the priority has no part.  A task that comes
    with an identifier keeps it, and the counter is left alone. *)
Theorem legacy_id_layout (self : Task.t) (ushort now_ms : Z) (w : World) :
  (Task.id self = 0 ->
   let new := fst (Task.init_id self ushort now_ms w) in
   Task.id new = (now_ms mod 2 ^ 32) * 2 ^ 32 + next_base w ushort
   /\ 0 <= Task.id new < 2 ^ 64
   /\ Z.shiftr (Task.id new) 32 = now_ms mod 2 ^ 32
   /\ Z.land (Task.id new) 0xFFFFFFFF
      = Task_next_id_base (snd (Task.init_id self ushort now_ms w))
   /\ Task.priority new = Task.priority self
   /\ forall p : Z,
        Task.id (fst (Task.init_id (Task.mk 0 p) ushort now_ms w))
        = Task.id new)
  /\ (Task.id self <> 0 -> Task.init_id self ushort now_ms w = (self, w)).
Proof.
  split.
  - intros Hid new. unfold new. rewrite (init_id_run self) by exact Hid.
    simpl fst. simpl snd. simpl Task.id. simpl Task.priority.
    simpl Task_next_id_base.
    pose proof (next_base_range w ushort) as Hb.
    pose proof (Z.mod_pos_bound now_ms (2 ^ 32) ltac:(lia)) as Ht.
    rewrite land_mask32, Z.shiftl_mul_pow2 by lia.
    split; [reflexivity|]. split; [lia|]. split; [|split; [|split]].
    + apply sum_high. exact Hb.
    + rewrite <- land_mask32. apply sum_low32. exact Hb.
    + reflexivity.
    + intros p. rewrite init_id_run by reflexivity. simpl.
      rewrite land_mask32, Z.shiftl_mul_pow2 by lia. reflexivity.
  - intros Hid. unfold Task.init_id.
    destruct (Z.eqb_spec (Task.id self) 0) as [H0|_]; [contradiction|].
    reflexivity.
Qed.

Lemma legacy_id_layout_witness :
  Task.id (Task.mk 0 3) = 0
  /\ Task.id (fst (Task.init_id (Task.mk 0 3) 41 1000 world0))
     = (1000 mod 2 ^ 32) * 2 ^ 32 + next_base world0 41
  /\ Task.id (Task.mk 99 3) <> 0
  /\ Task.init_id (Task.mk 99 3) 41 1000 world0 = (Task.mk 99 3, world0).
Proof.
  assert (H0 : Task.id (Task.mk 0 3) = 0) by reflexivity.
  assert (H1 : Task.id (Task.mk 99 3) <> 0) by discriminate.
  split; [exact H0|]. split.
  - exact (proj1 (proj1 (legacy_id_layout (Task.mk 0 3) 41 1000 world0) H0)).
  - split; [exact H1|].
    exact (proj2 (legacy_id_layout (Task.mk 99 3) 41 1000 world0) H1).
Defined.

End LegacyTask.

(** ** Building a message *)

Section MessageConstruction.

Import GrrMessage.

Lemma task_id_high (self : t) (ushort now_ms : Z) (w : World) :
  Z.shiftr (fst (GenerateTaskID self ushort now_ms w)) 61
  = max_priority - priority self.
Proof.
  rewrite GenerateTaskID_sum.
  pose proof (next_base_range w ushort) as Hb.
  pose proof (Z.mod_pos_bound now_ms (2 ^ 29) ltac:(lia)) as Ht.
  rewrite Z.shiftr_div_pow2 by lia.
  rewrite <- Z.add_assoc, Z.add_comm, Z.div_add by lia.
  rewrite Z.div_small by lia. reflexivity.
Qed.

(** The setter changes the three payload fields and nothing else. *)
Lemma set_payload_run (self : t) (v : RDFValue) (s : string) :
  SerializeToString v = Ok s ->
  set_payload self (PyRDFValue v)
  = Ok (mk (task_id self) (priority self) s
           (match _age v with Some a => Some a | None => args_age self end)
           (class_name v)).
Proof.
  intros Hs. unfold set_payload. rewrite Hs. simpl.
  destruct (_age v); reflexivity.
Qed.

Lemma set_payload_task_id (self m : t) (o : pyobj) :
  set_payload self o = Ok m -> task_id m = task_id self.
Proof.
  destruct o as [|v|b p]; simpl; try discriminate.
  destruct (SerializeToString v) as [s|e]; simpl; [|discriminate].
  destruct (_age v); intros [= <-]; reflexivity.
Qed.

(** The constructor allocates only when it has to: with an identifier
    already set, or when the payload makes it raise, the counter and the
    log are exactly as before, and a message that came with an identifier
    leaves with the same one. *)
Theorem init_allocates_only_when_needed
    (self : t) (payload : pyobj) (ushort now_ms : Z) (w : World) :
  (task_id self <> 0 \/ raises (fst (__init__ self payload ushort now_ms w)) ->
   snd (__init__ self payload ushort now_ms w) = w)
  /\ (forall m, task_id self <> 0 ->
        fst (__init__ self payload ushort now_ms w) = Ok m ->
        task_id m = task_id self)
  /\ (task_id self = 0 ->
      ~ raises (fst (__init__ self payload ushort now_ms w)) ->
      snd (__init__ self payload ushort now_ms w)
      = mkWorld (GrrMessage_next_id_base w) (next_base w ushort)
                (trace w ++ alloc_events w ushort)).
Proof.
  unfold __init__.
  destruct (pyobj_truth payload).
  - destruct (set_payload self payload) as [m1|e] eqn:Hset; simpl.
    + pose proof (set_payload_task_id self m1 payload Hset) as Hid.
      assert (Hid' : forall p,
                task_id (mk (task_id m1) p (args m1) (args_age m1)
                            (args_rdf_name m1)) = task_id self)
        by (intros; exact Hid).
      destruct (pyobj_priority payload) as [p|]; simpl.
      * rewrite Hid.
        destruct (Z.eqb_spec (task_id self) 0) as [H0|Hn0].
        -- unfold mbind, M_bind. rewrite GenerateTaskID_run. simpl.
           split; [intros [?|[]]; contradiction|].
           split; [intros; contradiction|]. reflexivity.
        -- simpl. split; [reflexivity|].
           split; [intros m _ [= <-]; first [reflexivity | exact Hid]|].
           intros; contradiction.
      * rewrite Hid.
        destruct (Z.eqb_spec (task_id self) 0) as [H0|Hn0].
        -- unfold mbind, M_bind. rewrite GenerateTaskID_run. simpl.
           split; [intros [?|[]]; contradiction|].
           split; [intros; contradiction|]. reflexivity.
        -- simpl. split; [reflexivity|].
           split; [intros m _ [= <-]; first [reflexivity | exact Hid]|].
           intros; contradiction.
    + split; [reflexivity|]. split; [discriminate|].
      intros _ Hr. exfalso. apply Hr. exact I.
  - simpl. destruct (Z.eqb_spec (task_id self) 0) as [H0|Hn0].
    + unfold mbind, M_bind. rewrite GenerateTaskID_run. simpl.
      split; [intros [?|[]]; contradiction|].
      split; [intros; contradiction|]. reflexivity.
    + simpl. split; [reflexivity|].
      split; [intros m _ [= <-]; reflexivity|]. intros; contradiction.
Qed.

Lemma init_allocates_only_when_needed_witness :
  raises (fst (__init__ (blank_message 5) (PyObject true (Some 3))
                 41 1000 world0))
  /\ snd (__init__ (blank_message 5) (PyObject true (Some 3)) 41 1000 world0)
     = world0.
Proof.
  assert (Hr : raises (fst (__init__ (blank_message 5)
                              (PyObject true (Some 3)) 41 1000 world0)))
    by exact I.
  split; [exact Hr|].
  exact (proj1 (init_allocates_only_when_needed (blank_message 5)
                  (PyObject true (Some 3)) 41 1000 world0) (or_intror Hr)).
Defined.

(** A message built without an identifier gets one that encodes the
    priority the message ends up with: the payload's, where the payload
    supplied one.  Its bits from 61 up are [7 - priority], its low 32 bits
    the base the allocation committed. *)
Theorem init_id_carries_final_priority
    (self m : t) (payload : pyobj) (ushort now_ms : Z) (w : World) :
  task_id self = 0 ->
  fst (__init__ self payload ushort now_ms w) = Ok m ->
  Z.shiftr (task_id m) 61 = max_priority - priority m
  /\ Z.land (task_id m) 0xFFFFFFFF = next_base w ushort
  /\ priority m
     = (if pyobj_truth payload
        then match pyobj_priority payload with
             | Some p => p
             | None => priority self
             end
        else priority self).
Proof.
  intros H0 Hm. unfold __init__ in Hm.
  destruct (pyobj_truth payload).
  - destruct (set_payload self payload) as [m1|e] eqn:Hset; simpl in Hm;
      [|discriminate].
    pose proof (set_payload_task_id self m1 payload Hset) as Hid.
    assert (Hprio : priority m1 = priority self).
    { destruct payload as [|v|b p]; simpl in Hset; try discriminate.
      destruct (SerializeToString v); simpl in Hset; [|discriminate].
      destruct (_age v); injection Hset as <-; reflexivity. }
    destruct (pyobj_priority payload) as [p|]; simpl in Hm;
      rewrite Hid, H0 in Hm; simpl in Hm;
      unfold mbind, M_bind in Hm;
      match type of Hm with
      | context [GenerateTaskID ?x _ _ _] =>
          pose proof (task_id_high x ushort now_ms w) as Hh;
          pose proof (task_id_low32 x ushort now_ms w) as Hl;
          destruct (GenerateTaskID x ushort now_ms w) as [tid w'] eqn:Hg
      end;
      simpl in Hm, Hh, Hl; injection Hm as <-; simpl;
      repeat split; assumption || reflexivity.
  - simpl in Hm. rewrite H0 in Hm. simpl in Hm.
    unfold mbind, M_bind in Hm.
    pose proof (task_id_high self ushort now_ms w) as Hh.
    pose proof (task_id_low32 self ushort now_ms w) as Hl.
    destruct (GenerateTaskID self ushort now_ms w) as [tid w'] eqn:Hg.
    simpl in Hm, Hh, Hl. injection Hm as <-. simpl.
    repeat split; assumption.
Qed.

Lemma init_id_carries_final_priority_witness :
  exists m,
    task_id (blank_message 5) = 0
    /\ fst (__init__ (blank_message 5) (PyRDFValue probe) 41 1000 world0) = Ok m
    /\ Z.shiftr (task_id m) 61 = max_priority - 3.
Proof.
  assert (H0 : task_id (blank_message 5) = 0) by reflexivity.
  assert (Hm : fst (__init__ (blank_message 5) (PyRDFValue probe)
                      41 1000 world0)
               = Ok (mk 9223376331822071850 3 "bytes" None "Probe"))
    by (vm_compute; reflexivity).
  exists (mk 9223376331822071850 3 "bytes" None "Probe").
  split; [exact H0|]. split; [exact Hm|].
  exact (proj1 (init_id_carries_final_priority (blank_message 5) _
                  (PyRDFValue probe) 41 1000 world0 H0 Hm)).
Defined.

(** What the setter stores the getter finds: after [payload = v] the
    getter hands the serialisation of [v] to the class registered under
    [v]'s class name, or to [RDFString] when there is none, together with
    the age the message then holds; the identifier and the priority are
    untouched. *)
Theorem set_payload_then_payload
    (classes : gmap string RDFClass) (self : t) (v : RDFValue) (s : string) :
  SerializeToString v = Ok s ->
  class_name v <> ""%string ->
  exists m,
    set_payload self (PyRDFValue v) = Ok m
    /\ task_id m = task_id self
    /\ priority m = priority self
    /\ args_age m
       = match _age v with Some a => Some a | None => args_age self end
    /\ payload classes m
       = (let cls := default RDFString (classes !! class_name v) in
          st ← cls_decode cls (args_age m) s;
          Ok (Some (mkRDFInstance (cls_name cls) (args_age m) st))).
Proof.
  intros Hs Hn. eexists. split; [apply set_payload_run; exact Hs|].
  simpl. repeat split.
  unfold payload. simpl. apply String.eqb_neq in Hn. rewrite Hn. reflexivity.
Qed.

Lemma set_payload_then_payload_witness :
  SerializeToString probe = Ok "bytes"%string
  /\ class_name probe <> ""%string
  /\ exists m,
       set_payload (blank_message 5) (PyRDFValue probe) = Ok m
       /\ payload ∅ m
          = Ok (Some (mkRDFInstance "RDFString" None (VStr "bytes"))).
Proof.
  assert (Hs : SerializeToString probe = Ok "bytes"%string) by reflexivity.
  assert (Hn : class_name probe <> ""%string) by discriminate.
  split; [exact Hs|]. split; [exact Hn|].
  destruct (set_payload_then_payload ∅ (blank_message 5) probe "bytes" Hs Hn)
    as (m & Hset & _ & _ & _ & Hget).
  exists m. split; [exact Hset|].
  rewrite Hget. injection Hset as <-. reflexivity.
Defined.

(** The setter overwrites the age only when the new payload has one: a
    payload without an age, set over one that had the age [a], leaves the
    message with the new bytes and class name under the old age [a]. *)
Theorem set_payload_keeps_stale_age
    (self : t) (v1 v2 : RDFValue) (s1 s2 : string) (a : Z) :
  SerializeToString v1 = Ok s1 -> _age v1 = Some a ->
  SerializeToString v2 = Ok s2 -> _age v2 = None ->
  (m1 ← set_payload self (PyRDFValue v1); set_payload m1 (PyRDFValue v2))
  = Ok (mk (task_id self) (priority self) s2 (Some a) (class_name v2)).
Proof.
  intros Hs1 Ha1 Hs2 Ha2.
  rewrite (set_payload_run self v1 s1 Hs1).
  unfold mbind, result_bind.
  rewrite (set_payload_run _ v2 s2 Hs2). simpl.
  rewrite Ha1, Ha2. reflexivity.
Qed.

Lemma set_payload_keeps_stale_age_witness :
  SerializeToString (mkRDFValue "A" (Ok "one") (Some 9) None true)
  = Ok "one"%string
  /\ _age (mkRDFValue "A" (Ok "one") (Some 9) None true) = Some 9
  /\ SerializeToString probe = Ok "bytes"%string
  /\ _age probe = None
  /\ (m1 ← set_payload (blank_message 5)
             (PyRDFValue (mkRDFValue "A" (Ok "one") (Some 9) None true));
      set_payload m1 (PyRDFValue probe))
     = Ok (mk 0 5 "bytes" (Some 9) "Probe").
Proof.
  split; [reflexivity|]. split; [reflexivity|].
  split; [reflexivity|]. split; [reflexivity|].
  exact (set_payload_keeps_stale_age (blank_message 5)
           (mkRDFValue "A" (Ok "one") (Some 9) None true) probe
           "one" "bytes" 9 eq_refl eq_refl eq_refl eq_refl).
Defined.

End MessageConstruction.

(** ** DataObject and FlowState as a store *)

Section StateStore.

Import FlowState.

Variable inherited : gmap string class_attr.

Lemma len_run (self : t) (d : gmap string value) :
  data self = VData d -> __len__ self = Ok (Z.of_nat (size d)).
Proof. intros Hd. unfold __len__. rewrite Hd. reflexivity. Qed.

(** [Register] on a state backed by a [DataObject] always succeeds, also
    for a name that is a class member; afterwards [get] returns the
    registered value, every other field reads as before, the length grows
    by one exactly when the name is new, and the instance dictionary is
    changed at [data] only. *)
Theorem Register_get_frame
    (self : t) (d : gmap string value) (f : string) (v default : value) :
  data self = VData d ->
  exists s',
    Register self f v = Ok s'
    /\ get s' f default = Ok v
    /\ (forall g, g <> f -> get s' g default = get self g default)
    /\ __len__ s'
       = Ok (Z.of_nat (size d) + match d !! f with Some _ => 0 | None => 1 end)
    /\ (forall k, k <> "data"%string -> __dict__ s' !! k = __dict__ self !! k).
Proof.
  intros Hd. eexists. split; [apply Register_run; exact Hd|].
  assert (Hd' : data (mk (<["data" := VData (<[f := v]> d)]> (__dict__ self)))
                = VData (<[f := v]> d)) by apply data_insert_data.
  split; [|split; [|split]].
  - rewrite (get_run _ _ f default Hd'), lookup_insert_eq. reflexivity.
  - intros g Hg. rewrite (get_run _ _ g default Hd'), (get_run _ _ g default Hd).
    rewrite lookup_insert_ne by congruence. reflexivity.
  - rewrite (len_run _ _ Hd'). f_equal.
    destruct (d !! f) as [x|] eqn:Hf.
    + rewrite map_size_insert_Some by eauto. lia.
    + rewrite map_size_insert_None by exact Hf. lia.
  - intros k Hk. simpl. rewrite lookup_insert_ne by congruence. reflexivity.
Qed.

Lemma Register_get_frame_witness :
  data (state_of ∅) = VData ∅
  /\ exists s',
       Register (state_of ∅) "x" (VInt 1) = Ok s'
       /\ get s' "x" VNone = Ok (VInt 1)
       /\ __len__ s' = Ok 1.
Proof.
  assert (Hd : data (state_of ∅) = VData ∅) by reflexivity.
  split; [exact Hd|].
  destruct (Register_get_frame (state_of ∅) ∅ "x" (VInt 1) VNone Hd)
    as (s' & Hr & Hg & _ & Hl & _).
  exists s'. split; [exact Hr|]. split; [exact Hg|]. exact Hl.
Defined.

(** Assigning a declared field that is no member never raises; the field
    then reads as the new value, every other field reads as before, the
    length is the same and the instance dictionary is changed at [data]
    only. *)
Theorem field_assignment_frame
    (self : t) (d : gmap string value) (f : string) (v default : value) :
  data self = VData d ->
  is_member inherited self f = false ->
  is_Some (d !! f) ->
  exists s',
    __setattr__ inherited self f v = Ok s'
    /\ get s' f default = Ok v
    /\ (forall g, g <> f -> get s' g default = get self g default)
    /\ __len__ s' = __len__ self
    /\ (forall k, k <> "data"%string -> __dict__ s' !! k = __dict__ self !! k).
Proof.
  intros Hd Hm Hf. eexists. split.
  { rewrite (setattr_run inherited self d f v Hd), Hm.
    rewrite bool_decide_eq_true_2 by exact Hf. reflexivity. }
  assert (Hd' : data (mk (<["data" := VData (<[f := v]> d)]> (__dict__ self)))
                = VData (<[f := v]> d)) by apply data_insert_data.
  split; [|split; [|split]].
  - rewrite (get_run _ _ f default Hd'), lookup_insert_eq. reflexivity.
  - intros g Hg. rewrite (get_run _ _ g default Hd'), (get_run _ _ g default Hd).
    rewrite lookup_insert_ne by congruence. reflexivity.
  - rewrite (len_run _ _ Hd'), (len_run _ _ Hd).
    rewrite map_size_insert_Some by exact Hf. reflexivity.
  - intros k Hk. simpl. rewrite lookup_insert_ne by congruence. reflexivity.
Qed.

Lemma Empty_run (self : t) (m : gmap string value) :
  data self = VData m ->
  Empty self
  = if Nat.eqb (size m) 1
    then match m !! "context" with
         | Some c => Ok (negb (py_truth c))
         | None => Raise (AttributeError "context")
         end
    else Ok false.
Proof.
  intros Hd. unfold Empty. rewrite Hd. simpl.
  destruct (Nat.eqb_spec (size m) 1) as [->|Hne]; simpl.
  - unfold DataObject.__getattr__. destruct (m !! "context"); reflexivity.
  - destruct (Z.eqb_spec (Z.of_nat (size m)) 1); [lia|reflexivity].
Qed.

(** From a state on which [Empty] is true, registering any field other
    than [context] makes [Empty] false, and registering [context] anew
    makes it true or false as the new value is empty or not. *)
Theorem Empty_after_Register (self : t) (d : gmap string value) :
  data self = VData d ->
  Empty self = Ok true ->
  (forall f v, f <> "context"%string ->
     (s' ← Register self f v; Empty s') = Ok false)
  /\ (forall c,
        (s' ← Register self "context" c; Empty s') = Ok (negb (py_truth c))).
Proof.
  intros Hd He. rewrite (Empty_run self d Hd) in He.
  destruct (Nat.eqb_spec (size d) 1) as [Hsz|]; [|discriminate].
  destruct (d !! "context") as [c0|] eqn:Hc; [|discriminate].
  pose proof (size_one_lookup d "context" c0 Hsz Hc) as ->.
  split.
  - intros f v Hf. rewrite (Register_run self _ f v Hd).
    unfold mbind, result_bind.
    rewrite (Empty_run _ _ (data_insert_data _ _)).
    rewrite map_size_insert_None
      by (rewrite lookup_singleton_ne by congruence; reflexivity).
    rewrite map_size_singleton. reflexivity.
  - intros c. rewrite (Register_run self _ "context" c Hd).
    unfold mbind, result_bind.
    rewrite (Empty_run _ _ (data_insert_data _ _)).
    rewrite map_size_insert_Some
      by (rewrite lookup_singleton_eq; eauto).
    rewrite map_size_singleton, lookup_insert_eq. reflexivity.
Qed.

(** Reading through [__getattr__].  A name the [DataObject] type itself
    defines is answered by the type, registered or not; any other name
    reads back what [Register] or a successful assignment last stored, and
    raises [AttributeError] when the mapping does not hold it. *)
Theorem getattr_after_write
    (builtin : pytype -> string -> bool)
    (self : t) (d : gmap string value) (f : string) (v : value) :
  data self = VData d ->
  (builtin TDataObject f = true ->
   (s' ← Register self f v; __getattr__ builtin s' f) = Ok Builtin)
  /\ (builtin TDataObject f = false ->
      (s' ← Register self f v; __getattr__ builtin s' f) = Ok (Field v))
  /\ (builtin TDataObject f = false ->
      is_member inherited self f = false -> is_Some (d !! f) ->
      (s' ← __setattr__ inherited self f v; __getattr__ builtin s' f)
      = Ok (Field v))
  /\ (builtin TDataObject f = false -> d !! f = None ->
      __getattr__ builtin self f = Raise (AttributeError f)).
Proof.
  intros Hd.
  split; [|split; [|split]].
  - intros Hb. rewrite (Register_run self d f v Hd).
    unfold mbind, result_bind, __getattr__, py_getattr.
    rewrite data_insert_data. simpl. rewrite Hb. reflexivity.
  - intros Hb. rewrite (Register_run self d f v Hd).
    unfold mbind, result_bind, __getattr__, py_getattr.
    rewrite data_insert_data. simpl. rewrite Hb.
    unfold DataObject.__getattr__. rewrite lookup_insert_eq. reflexivity.
  - intros Hb Hm Hf. rewrite (setattr_run inherited self d f v Hd), Hm.
    rewrite bool_decide_eq_true_2 by exact Hf.
    unfold mbind, result_bind, __getattr__, py_getattr.
    rewrite data_insert_data. simpl. rewrite Hb.
    unfold DataObject.__getattr__. rewrite lookup_insert_eq. reflexivity.
  - intros Hb Hf. unfold __getattr__, py_getattr. rewrite Hd. simpl.
    rewrite Hb. unfold DataObject.__getattr__. rewrite Hf. reflexivity.
Qed.

End StateStore.

Lemma field_assignment_frame_witness :
  FlowState.data (state_of {["x" := VInt 1]}) = VData {["x" := VInt 1]}
  /\ is_member ∅ (state_of {["x" := VInt 1]}) "x" = false
  /\ is_Some (({["x" := VInt 1]} : gmap string value) !! "x")
  /\ exists s',
       FlowState.__setattr__ ∅ (state_of {["x" := VInt 1]}) "x" (VInt 2)
       = Ok s'
       /\ FlowState.get s' "x" VNone = Ok (VInt 2)
       /\ FlowState.__len__ s'
          = FlowState.__len__ (state_of {["x" := VInt 1]}).
Proof.
  assert (Hd : FlowState.data (state_of {["x" := VInt 1]})
               = VData {["x" := VInt 1]}) by reflexivity.
  assert (Hm : is_member ∅ (state_of {["x" := VInt 1]}) "x" = false)
    by reflexivity.
  assert (Hf : is_Some (({["x" := VInt 1]} : gmap string value) !! "x"))
    by (exists (VInt 1); reflexivity).
  split; [exact Hd|]. split; [exact Hm|]. split; [exact Hf|].
  destruct (field_assignment_frame ∅ (state_of {["x" := VInt 1]})
              {["x" := VInt 1]} "x" (VInt 2) VNone Hd Hm Hf)
    as (s' & Hs & Hg & _ & Hl & _).
  exists s'. split; [exact Hs|]. split; [exact Hg|]. exact Hl.
Defined.

Lemma Empty_after_Register_witness :
  FlowState.data (state_of {["context" := VData ∅]})
  = VData {["context" := VData ∅]}
  /\ FlowState.Empty (state_of {["context" := VData ∅]}) = Ok true
  /\ "x"%string <> "context"%string
  /\ (s' ← FlowState.Register (state_of {["context" := VData ∅]}) "x" (VInt 1);
      FlowState.Empty s') = Ok false.
Proof.
  assert (Hd : FlowState.data (state_of {["context" := VData ∅]})
               = VData {["context" := VData ∅]}) by reflexivity.
  assert (He : FlowState.Empty (state_of {["context" := VData ∅]}) = Ok true)
    by reflexivity.
  assert (Hne : "x"%string <> "context"%string) by discriminate.
  split; [exact Hd|]. split; [exact He|]. split; [exact Hne|].
  exact (proj1 (Empty_after_Register (state_of {["context" := VData ∅]})
                  {["context" := VData ∅]} Hd He) "x" (VInt 1) Hne).
Defined.

Lemma getattr_after_write_witness :
  FlowState.data (state_of ∅) = VData ∅
  /\ dict_method TDataObject "keys" = true
  /\ (s' ← FlowState.Register (state_of ∅) "keys" (VInt 1);
      FlowState.__getattr__ dict_method s' "keys") = Ok Builtin
  /\ dict_method TDataObject "x" = false
  /\ (s' ← FlowState.Register (state_of ∅) "x" (VInt 1);
      FlowState.__getattr__ dict_method s' "x") = Ok (Field (VInt 1)).
Proof.
  assert (Hd : FlowState.data (state_of ∅) = VData ∅) by reflexivity.
  assert (Hk : dict_method TDataObject "keys" = true) by reflexivity.
  assert (Hx : dict_method TDataObject "x" = false) by reflexivity.
  split; [exact Hd|]. split; [exact Hk|]. split.
  - exact (proj1 (getattr_after_write ∅ dict_method (state_of ∅) ∅ "keys"
                    (VInt 1) Hd) Hk).
  - split; [exact Hx|].
    exact (proj1 (proj2 (getattr_after_write ∅ dict_method (state_of ∅) ∅ "x"
                           (VInt 1) Hd)) Hx).
Defined.

(** ** Parsing, comparing and carrying a FlowState *)

Section StateBlob.

Import FlowState.

Variable pk : Pickle.
Variable inherited : gmap string class_attr.

(** Parsing replaces the backing mapping wholesale.  When the codec reads
    the string as a mapping [d'], every field reads from [d'] alone and a
    name that is no member and not in [d'] is unregistered again, whatever
    had been registered before; the other instance attributes stay.  When
    the codec rejects the string the call raises [DecodeError]. *)
Theorem ParseFromString_replaces
    (self : t) (s : string) (d' : gmap string value) :
  (loads pk s = Some (VData d') ->
   exists s',
     ParseFromString pk inherited self s = Ok s'
     /\ data s' = VData d'
     /\ (forall f default,
           get s' f default
           = Ok (match d' !! f with Some x => x | None => default end))
     /\ (forall f v,
           is_member inherited self f = false -> d' !! f = None ->
           __setattr__ inherited s' f v = Raise unregistered)
     /\ (forall k, k <> "data"%string -> __dict__ s' !! k = __dict__ self !! k)
     /\ SerializeToString pk s' = dumps pk (VData d'))
  /\ (loads pk s = None ->
      ParseFromString pk inherited self s = Raise DecodeError).
Proof.
  split.
  - intros Hl. eexists. split.
    { rewrite ParseFromString_run, Hl. reflexivity. }
    assert (Hd : data (mk (<["data" := VData d']> (__dict__ self))) = VData d')
      by apply data_insert_data.
    split; [exact Hd|]. split; [|split; [|split]].
    + intros f default. apply get_run. exact Hd.
    + intros f v Hm Hf.
      rewrite (setattr_run inherited _ d' f v Hd).
      rewrite (is_member_insert_data inherited self f _ Hm).
      rewrite bool_decide_eq_false_2; [reflexivity|].
      rewrite Hf. intros [x Hx]. discriminate.
    + intros k Hk. simpl. rewrite lookup_insert_ne by congruence. reflexivity.
    + unfold SerializeToString. rewrite Hd. reflexivity.
  - intros Hl. rewrite ParseFromString_run, Hl. reflexivity.
Qed.


End StateBlob.

Section StateAsPayload.

Variable pk : Pickle.
Variable inherited : gmap string FlowState.class_attr.

(** A [FlowState] travels through a message: when the codec reads back
    the mapping it wrote, setting a [FlowState] payload and getting it
    from a registry that knows the class yields a [FlowState] instance
    whose backing mapping is the one that was sent. *)
Theorem FlowState_payload_round_trip
    (self : GrrMessage.t) (v : RDFValue) (d : gmap string value) :
  loads pk (dumps pk (VData d)) = Some (VData d) ->
  class_name v = "FlowState"%string ->
  SerializeToString v = Ok (dumps pk (VData d)) ->
  exists m,
    GrrMessage.set_payload self (PyRDFValue v) = Ok m
    /\ GrrMessage.payload {["FlowState" := FlowState.as_class pk inherited Ok]} m
       = Ok (Some (mkRDFInstance "FlowState" (GrrMessage.args_age m)
                     (VData {["data" := VData d]}))).
Proof.
  intros Hl Hn Hs. eexists. split; [apply set_payload_run; exact Hs|].
  unfold GrrMessage.payload. simpl GrrMessage.args_rdf_name.
  rewrite Hn. simpl negb. cbn iota.
  rewrite lookup_singleton_eq. cbn [default id].
  simpl GrrMessage.args. simpl GrrMessage.args_age.
  cbn [FlowState.as_class cls_decode cls_name].
  unfold FlowState.__init__, FlowState.__setattr__, FlowState.class_has,
    FlowState.class_attrs.
  rewrite (lookup_union_Some_l FlowState.own_attrs inherited "data"
             (FlowState.Attr VNone)) by reflexivity.
  cbn [py_ne_minus_one orb mbind result_bind].
  rewrite ParseFromString_run, Hl. cbn [FlowState.__dict__ mbind result_bind].
  rewrite insert_empty, insert_singleton_eq. reflexivity.
Qed.

End StateAsPayload.

Lemma ParseFromString_replaces_witness :
  loads (mkPickle (fun _ => "blob"%string) (fun _ => Some (VData ∅))) "blob"
  = Some (VData ∅)
  /\ is_member ∅ (state_of {["x" := VInt 1]}) "x" = false
  /\ (∅ : gmap string value) !! "x" = None
  /\ exists s',
       FlowState.ParseFromString
         (mkPickle (fun _ => "blob"%string) (fun _ => Some (VData ∅))) ∅
         (state_of {["x" := VInt 1]}) "blob" = Ok s'
       /\ FlowState.__setattr__ ∅ s' "x" (VInt 2)
          = Raise FlowState.unregistered.
Proof.
  split; [reflexivity|]. split; [reflexivity|]. split; [reflexivity|].
  destruct (proj1 (ParseFromString_replaces
                     (mkPickle (fun _ => "blob"%string)
                               (fun _ => Some (VData ∅))) ∅
                     (state_of {["x" := VInt 1]}) "blob" ∅) eq_refl)
    as (s' & Hp & _ & _ & Hset & _).
  exists s'. split; [exact Hp|].
  exact (Hset "x" (VInt 2) eq_refl eq_refl).
Defined.


Lemma FlowState_payload_round_trip_witness :
  exists m,
    GrrMessage.set_payload (blank_message 5)
      (PyRDFValue (mkRDFValue "FlowState" (Ok "blob") None None true)) = Ok m
    /\ GrrMessage.payload
         {["FlowState" := FlowState.as_class
                            (mkPickle (fun _ => "blob"%string)
                                      (fun _ => Some (VData ∅))) ∅ Ok]} m
       = Ok (Some (mkRDFInstance "FlowState" (GrrMessage.args_age m)
                     (VData {["data" := VData ∅]}))).
Proof.
  exact (FlowState_payload_round_trip
           (mkPickle (fun _ => "blob"%string) (fun _ => Some (VData ∅))) ∅
           (blank_message 5)
           (mkRDFValue "FlowState" (Ok "blob") None None true) ∅
           eq_refl eq_refl eq_refl).
Defined.


(** ** Round trip of the serialisation *)

Section SerialiseRoundTrip.

Variable pk : Pickle.
Variable inherited : gmap string FlowState.class_attr.

(** C9. When the codec reads back the backing mapping of [self] as it
    wrote it, parsing the serialisation of [self] into any container
    [target] succeeds, and the container then serialises to the very same
    string, its backing mapping being that of [self]. *)
Theorem Serialize_round_trip (self target : FlowState.t) :
  reads_back pk (FlowState.data self) ->
  exists s',
    FlowState.ParseFromString pk inherited target
      (FlowState.SerializeToString pk self) = Ok s'
    /\ FlowState.SerializeToString pk s' = FlowState.SerializeToString pk self
    /\ FlowState.data s' = FlowState.data self.
Proof.
  unfold reads_back. intros Hrt. eexists. split.
  - rewrite ParseFromString_run. unfold FlowState.SerializeToString.
    rewrite Hrt. reflexivity.
  - unfold FlowState.SerializeToString.
    rewrite data_insert_data. split; reflexivity.
Qed.

End SerialiseRoundTrip.

Lemma Serialize_round_trip_witness :
  reads_back two_entry_codec (FlowState.data (state_of {["x" := VInt 1]}))
  /\ exists s',
       FlowState.ParseFromString two_entry_codec ∅ (state_of ∅)
         (FlowState.SerializeToString two_entry_codec
            (state_of {["x" := VInt 1]})) = Ok s'
       /\ FlowState.SerializeToString two_entry_codec s'
          = FlowState.SerializeToString two_entry_codec
              (state_of {["x" := VInt 1]})
       /\ FlowState.data s' = FlowState.data (state_of {["x" := VInt 1]}).
Proof.
  assert (Hrt : reads_back two_entry_codec
                  (FlowState.data (state_of {["x" := VInt 1]})))
    by reflexivity.
  split; [exact Hrt|].
  exact (Serialize_round_trip two_entry_codec ∅
           (state_of {["x" := VInt 1]}) (state_of ∅) Hrt).
Defined.
